(** * Trading analysis dashboard (app.py): pivots, EMA clouds, Ripster signal

    A shallow embedding of [app.py].

    - Numbers are rationals ([Q]).  The pivot levels are given twice: with
      exact operations, and with every operation rounded to the nearest
      double ([Float64.round], no overflow), which is the arithmetic of the
      source.  The moving averages follow the recurrence pandas documents,
      with exact operations.  Equations between computed numbers are stated
      with [==].
    - A Python exception is a value of an error monad ([Py.result]).
    - The Streamlit calls of the main loop are a log of shown elements that
      ends with a return or a raise ([ui]).
    - The market-data provider ([yfinance]) is a section variable.
    - Calls to [logging] only print to the console and are left out. *)

From Stdlib Require Import ZArith QArith Qabs Qround List String Ascii Bool.
From Stdlib Require Import Lia Lqa DecimalString.
From Stdlib Require Import DecimalN.
Import ListNotations.

Open Scope string_scope.
Open Scope Q_scope.

(* ================================================================== *)
(** ** Python runtime fragments *)

Module Py.

(** The two exceptions the modelled code can raise. *)
Inductive exn : Type :=
| KeyError (key : string)
| IndexError (msg : string).

Inductive result (A : Type) : Type :=
| Ok (a : A)
| Raise (e : exn).
Arguments Ok {A} a.
Arguments Raise {A} e.

Definition bind {A B} (m : result A) (k : A -> result B) : result B :=
  match m with
  | Ok a => k a
  | Raise e => Raise e
  end.

Definition result_map {A B} (f : A -> B) (r : result A) : result B :=
bind r (fun x => Ok (f x)).

(** [a and b] on booleans: [b] is evaluated only when [a] is true. *)
Definition and_ (a b : result bool) : result bool :=
  bind a (fun x => if x then b else Ok false).

(** A [dict] with string keys, in insertion order. *)
Definition dict (V : Type) : Type := list (string * V).

Fixpoint dict_find {V} (d : dict V) (k : string) : option V :=
  match d with
  | [] => None
  | (k', v) :: d' => if String.eqb k' k then Some v else dict_find d' k
  end.

Definition dict_getitem {V} (d : dict V) (k : string) : result V :=
  match dict_find d k with
  | Some v => Ok v
  | None => Raise (KeyError k)
  end.

(** [d.get(k, default)] *)
Definition dict_get {V} (d : dict V) (k : string) (default : V) : V :=
  match dict_find d k with
  | Some v => v
  | None => default
  end.

(** [d[k] = v]: replaces the value of an existing key in place, appends a
    new key at the end. *)
Fixpoint dict_setitem {V} (d : dict V) (k : string) (v : V) : dict V :=
  match d with
  | [] => [(k, v)]
  | (k', v') :: d' =>
      if String.eqb k' k then (k', v) :: d' else (k', v') :: dict_setitem d' k v
  end.

(** Strict comparisons of numbers. *)
Definition lt (x y : Q) : bool := negb (Qle_bool y x).
Definition gt (x y : Q) : bool := lt y x.

(** [str(n)] for an integer. *)
Definition str_Z (n : Z) : string :=
  match n with
  | Zneg p => "-" ++ NilZero.string_of_uint (Pos.to_uint p)
  | _ => NilZero.string_of_uint (N.to_uint (Z.to_N n))
  end.

(** Rounding to the nearest integer, ties to even, of a non-negative
    number. *)
Definition round_half_even (x : Q) : Z :=
  let f := Qfloor x in
  match Qcompare (x - inject_Z f) (1 # 2) with
  | Lt => f
  | Gt => (f + 1)%Z
  | Eq => if Z.even f then f else (f + 1)%Z
  end.

Definition two_digits (n : Z) : string :=
  if (n <? 10)%Z then "0" ++ str_Z n else str_Z n.

(** [f"{x:.2f}"]: sign, integer part, point, two decimals; the magnitude is
    rounded to hundredths, ties to even. *)
Definition hundredths (x : Q) : Z := round_half_even (Qabs x * 100).

Definition format_2f (x : Q) : string :=
  let n := hundredths x in
  (if lt x 0 then "-" else "")
    ++ str_Z (n / 100) ++ "." ++ two_digits (n mod 100).

End Py.

Import Py.

Notation "x <- m ;; k" := (Py.bind m (fun x => k))
  (at level 61, m at next level, right associativity).

(* ================================================================== *)
(** ** The fragment of pandas the application uses *)

Module Pandas.

(** A column of numbers. *)
Definition Series : Type := list Q.

(** A row taken out of a frame: values labelled by column name. *)
Definition Row : Type := dict Q.

(** A frame: the row labels (timestamps) and the named columns.  pandas
    keeps every column as long as the index. *)
Record DataFrame : Type := mkDataFrame {
  index : list Z;
  columns : dict Series
}.

Definition aligned (d : DataFrame) : Prop :=
  Forall (fun kc => List.length (snd kc) = List.length (index d)) (columns d).

(** [d.empty]: no rows or no columns. *)
Definition empty (d : DataFrame) : bool :=
  (Nat.eqb (List.length (index d)) 0 || Nat.eqb (List.length (columns d)) 0)%bool.

(** [d[k]] *)
Definition getitem (d : DataFrame) (k : string) : result Series :=
  dict_getitem (columns d) k.

(** [d[k] = s] *)
Definition setitem (d : DataFrame) (k : string) (s : Series) : DataFrame :=
  mkDataFrame (index d) (dict_setitem (columns d) k s).

(** [d.iloc[i]] for an integer [i]; negative positions count from the
    end, a position outside the frame raises [IndexError]. *)
Definition iloc (d : DataFrame) (i : Z) : result Row :=
  let n := Z.of_nat (List.length (index d)) in
  let j := if (i <? 0)%Z then (n + i)%Z else i in
  if ((j <? 0) || (n <=? j))%Z
  then Raise (IndexError "single positional indexer is out-of-bounds")
  else Ok (map (fun kc => (fst kc, nth (Z.to_nat j) (snd kc) 0)) (columns d)).

(** [d.iloc[:k]]: the first [k] rows. *)
Definition head (k : nat) (d : DataFrame) : DataFrame :=
  mkDataFrame (firstn k (index d))
              (map (fun kc => (fst kc, firstn k (snd kc))) (columns d)).

(** [s.ewm(span=span, adjust=False).mean()].  pandas derives the centre of
    mass from the span, the smoothing factor from the centre of mass, and
    then runs  y_0 = x_0,  y_t = (1 - alpha) y_{t-1} + alpha x_t  with no
    minimum number of observations. *)
Definition com_of_span (span : Z) : Q := (inject_Z span - 1) / 2.
Definition alpha_of_span (span : Z) : Q := 1 / (1 + com_of_span span).

Fixpoint ewm_from (alpha weighted : Q) (vals : Series) : Series :=
  match vals with
  | [] => []
  | cur :: rest =>
      let w := (1 - alpha) * weighted + alpha * cur in
      w :: ewm_from alpha w rest
  end.

Definition ewm_mean (span : Z) (vals : Series) : Series :=
  match vals with
  | [] => []
  | v0 :: rest => v0 :: ewm_from (alpha_of_span span) v0 rest
  end.

End Pandas.

Import Pandas.

(* ================================================================== *)
(** ** Plotly figures and Streamlit elements *)

Inductive trace : Type :=
| Candlestick (x : list Z) (open high low close : Series) (name : string)
| Scatter (x : list Z) (y : Series) (name : option string)
| HLine (y : Q) (line_color : string) (annotation_text : string)
| Bar (x : list Z) (y : Series) (name : string).

Record Figure : Type := mkFigure {
  subplot_title : string;
  traces : list trace
}.

(** What the page shows, in order.  Columns and expanders only lay the
    elements out and are not recorded. *)
Inductive element : Type :=
| StatusInfo (body : string)
| StatusSuccess (body : string)
| Divider
| Header (body : string)
| Warning (body : string)
| Metric (label value : string)
| Text (body : string)
| Json (body : dict Q)
| PlotlyChart (fig : Figure).

(** A computation that shows elements and then returns or raises. *)
Definition ui (A : Type) : Type := (list element * result A)%type.

Definition ui_ret {A} (a : A) : ui A := ([], Ok a).
Definition ui_show (e : element) : ui unit := ([e], Ok tt).
Definition ui_lift {A} (r : result A) : ui A := ([], r).

Definition ui_bind {A B} (m : ui A) (k : A -> ui B) : ui B :=
  match m with
  | (out, Ok a) => let (out', r) := k a in ((out ++ out')%list, r)
  | (out, Raise e) => (out, Raise e)
  end.

Notation "x <~ m ;; k" := (ui_bind m (fun x => k))
  (at level 61, m at next level, right associativity).
Notation "m ;;; k" := (ui_bind m (fun _ => k))
  (at level 61, right associativity).

(* ================================================================== *)
(** ** app.py *)

(** *** Pivot points *)

Definition calculate_pivot_points (prev_day : Row) : result (dict Q) :=
  high <- dict_getitem prev_day "High" ;;
  low <- dict_getitem prev_day "Low" ;;
  close <- dict_getitem prev_day "Close" ;;
  let pp := (high + low + close) / 3 in
  Ok [ ("R2", pp + (high - low));
       ("R1", (2 * pp) - low);
       ("PP", pp);
       ("S1", (2 * pp) - high);
       ("S2", pp - (high - low)) ].

(** *** Exponential moving averages *)

Definition ema_periods : list Z := [5; 8; 9; 12; 34; 50]%Z.

Definition ema_name (period : Z) : string := "EMA" ++ str_Z period.

(** The body of the loop for one period. *)
Definition calculate_ema (data : DataFrame) (period : Z) : result DataFrame :=
  close <- getitem data "Close" ;;
  Ok (setitem data (ema_name period) (ewm_mean period close)).

Fixpoint calculate_emas_loop (periods : list Z) (data : DataFrame)
  : result DataFrame :=
  match periods with
  | [] => Ok data
  | period :: periods' =>
      data' <- calculate_ema data period ;;
      calculate_emas_loop periods' data'
  end.

Definition calculate_emas (data : DataFrame) : result DataFrame :=
  calculate_emas_loop ema_periods data.

(** The frame the loop builds when the Close column is [closes]. *)
Definition with_emas (closes : Series) (periods : list Z) (data : DataFrame)
  : DataFrame :=
  fold_left (fun d p => setitem d (ema_name p) (ewm_mean p closes)) periods data.

(** *** The signal *)

Record verdict : Type := mkVerdict {
  signal : string;
  reason : string;
  stop_loss : string;
  current_price : Q
}.

Definition LONG : string := "🟢 LONG".
Definition SHORT : string := "🔴 SHORT".
Definition NEUTRAL : string := "⚪️ HOLD/NEUTRAL".

(** The stop text of both directional branches. *)
Definition cloud_stop (latest : Row) : result string :=
  e34 <- dict_getitem latest "EMA34" ;;
  e50 <- dict_getitem latest "EMA50" ;;
  Ok ("Primary stop is 34/50 cloud (" ++ format_2f e34 ++ "-"
        ++ format_2f e50 ++ ").").

(** The rules, on the last row. *)
Definition ripster_rules (latest : Row) : result verdict :=
  price <- dict_getitem latest "Close" ;;
  is_bullish_bias <-
    and_ (e34 <- dict_getitem latest "EMA34" ;; Ok (gt price e34))
         (e50 <- dict_getitem latest "EMA50" ;; Ok (gt price e50)) ;;
  is_bearish_bias <-
    and_ (e34 <- dict_getitem latest "EMA34" ;; Ok (lt price e34))
         (e50 <- dict_getitem latest "EMA50" ;; Ok (lt price e50)) ;;
  is_long_confirmation <-
    (e5 <- dict_getitem latest "EMA5" ;;
     e12 <- dict_getitem latest "EMA12" ;; Ok (gt e5 e12)) ;;
  is_short_confirmation <-
    (e5 <- dict_getitem latest "EMA5" ;;
     e12 <- dict_getitem latest "EMA12" ;; Ok (lt e5 e12)) ;;
  if (is_bullish_bias && is_long_confirmation)%bool then
    stop_level <- cloud_stop latest ;;
    Ok (mkVerdict LONG
          "Bullish bias confirmed by price over 34/50 cloud and 5/12 EMA cross."
          stop_level price)
  else if (is_bearish_bias && is_short_confirmation)%bool then
    stop_level <- cloud_stop latest ;;
    Ok (mkVerdict SHORT
          "Bearish bias confirmed by price under 34/50 cloud and 5/12 EMA cross."
          stop_level price)
  else
    Ok (mkVerdict NEUTRAL
          "Price is in a consolidation or conflicting signal zone."
          "No trade recommended." price).

Definition get_ripster_signal (data : DataFrame) : result verdict :=
  latest <- iloc data (-1) ;;
  ripster_rules latest.

(** The same rules with the bearish test made a second, separate [if]
    (instead of the [elif] of the source): a later assignment overwrites an
    earlier one. *)
Definition ripster_rules_independent (latest : Row) : result verdict :=
  price <- dict_getitem latest "Close" ;;
  is_bullish_bias <-
    and_ (e34 <- dict_getitem latest "EMA34" ;; Ok (gt price e34))
         (e50 <- dict_getitem latest "EMA50" ;; Ok (gt price e50)) ;;
  is_bearish_bias <-
    and_ (e34 <- dict_getitem latest "EMA34" ;; Ok (lt price e34))
         (e50 <- dict_getitem latest "EMA50" ;; Ok (lt price e50)) ;;
  is_long_confirmation <-
    (e5 <- dict_getitem latest "EMA5" ;;
     e12 <- dict_getitem latest "EMA12" ;; Ok (gt e5 e12)) ;;
  is_short_confirmation <-
    (e5 <- dict_getitem latest "EMA5" ;;
     e12 <- dict_getitem latest "EMA12" ;; Ok (lt e5 e12)) ;;
  let v0 := mkVerdict NEUTRAL
              "Price is in a consolidation or conflicting signal zone."
              "No trade recommended." price in
  v1 <- (if (is_bullish_bias && is_long_confirmation)%bool then
           stop_level <- cloud_stop latest ;;
           Ok (mkVerdict LONG
                 "Bullish bias confirmed by price over 34/50 cloud and 5/12 EMA cross."
                 stop_level price)
         else Ok v0) ;;
  if (is_bearish_bias && is_short_confirmation)%bool then
    stop_level <- cloud_stop latest ;;
    Ok (mkVerdict SHORT
          "Bearish bias confirmed by price under 34/50 cloud and 5/12 EMA cross."
          stop_level price)
  else Ok v1.

Definition get_ripster_signal_independent (data : DataFrame) : result verdict :=
  latest <- iloc data (-1) ;;
  ripster_rules_independent latest.

(** *** The chart *)

Definition pivot_colors : dict string :=
  [ ("R2", "#FF5733"); ("R1", "#FF8C33"); ("PP", "white");
    ("S1", "#33FF57"); ("S2", "#33FFB8") ].

Definition create_fancy_trading_chart
    (data : DataFrame) (pivots : dict Q) (ticker_str : string) : result Figure :=
  o <- getitem data "Open" ;;
  h <- getitem data "High" ;;
  l <- getitem data "Low" ;;
  c <- getitem data "Close" ;;
  e34 <- getitem data "EMA34" ;;
  e50 <- getitem data "EMA50" ;;
  e5 <- getitem data "EMA5" ;;
  e12 <- getitem data "EMA12" ;;
  let hlines :=
    map (fun lv => HLine (snd lv) (dict_get pivot_colors (fst lv) "grey")
                     (fst lv ++ " " ++ format_2f (snd lv))) pivots in
  vol <- getitem data "Volume" ;;
  Ok (mkFigure (ticker_str ++ " Price Action & EMAs")
        ([ Candlestick (index data) o h l c "Price";
           Scatter (index data) e34 None;
           Scatter (index data) e50 (Some "34/50 Cloud");
           Scatter (index data) e5 None;
           Scatter (index data) e12 (Some "5/12 Cloud") ]
           ++ hlines ++ [ Bar (index data) vol "Volume" ])%list).

(** *** Fetching and the main loop *)

Section Gateway.

(** [yf.Ticker(ticker).history(period=..., interval=...)] *)
Variable history : string -> string -> string -> DataFrame.

Definition get_stock_data (ticker_str : string)
  : result (option Row * option DataFrame) :=
  let daily_hist := history ticker_str "2d" "1d" in
  let intraday_hist := history ticker_str "7d" "15m" in
  if (empty daily_hist || empty intraday_hist)%bool then
    Ok (None, None)
  else
    prev_day <- iloc daily_hist (-2) ;;
    Ok (Some prev_day, Some intraday_hist).

(** The body of the loop of [run_analysis_for_tickers]. *)
Definition analyse_ticker (ticker : string) : ui unit :=
  ui_show Divider ;;;
  ui_show (Header ("Analysis for: " ++ ticker)) ;;;
  fetched <~ ui_lift (get_stock_data ticker) ;;
  match fetched with
  | (Some prev_day, Some intraday_data) =>
      pivots <~ ui_lift (calculate_pivot_points prev_day) ;;
      intraday_data <~ ui_lift (calculate_emas intraday_data) ;;
      signal_info <~ ui_lift (get_ripster_signal intraday_data) ;;
      ui_show (Metric "Current Price"
                 ("$" ++ format_2f (current_price signal_info))) ;;;
      ui_show (Metric "Signal" (signal signal_info)) ;;;
      ui_show (Text ("**Reason:** " ++ reason signal_info)) ;;;
      ui_show (Text ("**Risk/Stop:** " ++ stop_loss signal_info)) ;;;
      ui_show (Json pivots) ;;;
      chart <~ ui_lift (create_fancy_trading_chart intraday_data pivots ticker) ;;
      ui_show (PlotlyChart chart)
  | _ =>
      ui_show (Warning "Could not fetch complete data. Skipping.")
  end.

Fixpoint for_each_ticker (tickers : list string) : ui unit :=
  match tickers with
  | [] => ui_ret tt
  | ticker :: rest => analyse_ticker ticker ;;; for_each_ticker rest
  end.

Definition run_analysis_for_tickers (tickers_to_analyze : list string) : ui unit :=
  ui_show (StatusInfo ("Fetching data for "
                         ++ str_Z (Z.of_nat (List.length tickers_to_analyze))
                         ++ " stock(s)... Please wait.")) ;;;
  for_each_ticker tickers_to_analyze ;;;
  ui_show (StatusSuccess "✅ Analysis Complete!").

End Gateway.

(* ================================================================== *)
(** ** Closed forms used in the statements *)

(** What the page shows for a ticker that is skipped. *)
Definition skipped (ticker : string) : list element :=
  [ Divider; Header ("Analysis for: " ++ ticker);
    Warning "Could not fetch complete data. Skipping." ].

(** The verdict as a function of the five fields of the last row. *)
Definition verdict_of (price e5 e12 e34 e50 : Q) : verdict :=
  if (Py.gt price e34 && Py.gt price e50 && Py.gt e5 e12)%bool then
    mkVerdict LONG
      "Bullish bias confirmed by price over 34/50 cloud and 5/12 EMA cross."
      ("Primary stop is 34/50 cloud (" ++ format_2f e34 ++ "-"
         ++ format_2f e50 ++ ").") price
  else if (Py.lt price e34 && Py.lt price e50 && Py.lt e5 e12)%bool then
    mkVerdict SHORT
      "Bearish bias confirmed by price under 34/50 cloud and 5/12 EMA cross."
      ("Primary stop is 34/50 cloud (" ++ format_2f e34 ++ "-"
         ++ format_2f e50 ++ ").") price
  else
    mkVerdict NEUTRAL
      "Price is in a consolidation or conflicting signal zone."
      "No trade recommended." price.

(* ================================================================== *)
(** ** Sample data *)

(** The prior session of the end-to-end scenario. *)
Definition session_105_95_100 : Row :=
  [ ("Open", 98); ("High", 105); ("Low", 95); ("Close", 100);
    ("Volume", 120000) ].

(** A session whose close lies far above its high. *)
Definition session_close_above_high : Row :=
  [ ("Open", 5); ("High", 10); ("Low", 0); ("Close", 100); ("Volume", 1) ].

(** An intraday frame with the provider's columns and no rows. *)
Definition zero_bar_intraday : DataFrame :=
  mkDataFrame []
    [ ("Open", []); ("High", []); ("Low", []); ("Close", []); ("Volume", []) ].

(** Three 15-minute bars. *)
Definition three_bar_intraday : DataFrame :=
  mkDataFrame [0; 900; 1800]%Z
    [ ("Open", [10; 10; 20]); ("High", [11; 21; 20]); ("Low", [9; 10; 14]);
      ("Close", [10; 20; 15]); ("Volume", [300; 500; 400]) ].

(** One bar of the end-to-end scenario: close 120 above both clouds. *)
Definition long_bar_intraday : DataFrame :=
  mkDataFrame [0]%Z
    [ ("Open", [119]); ("High", [121]); ("Low", [118]); ("Close", [120]);
      ("Volume", [1000]);
      ("EMA5", [50]); ("EMA8", [48]); ("EMA9", [47]); ("EMA12", [40]);
      ("EMA34", [110]); ("EMA50", [108]) ].

(** One bar whose close sits exactly on every average. *)
Definition flat_bar_intraday : DataFrame :=
  mkDataFrame [0]%Z
    [ ("Open", [100]); ("High", [100]); ("Low", [100]); ("Close", [100]);
      ("Volume", [1000]);
      ("EMA5", [100]); ("EMA8", [100]); ("EMA9", [100]); ("EMA12", [100]);
      ("EMA34", [100]); ("EMA50", [100]) ].

(** Daily frames with two sessions and with a single session. *)
Definition two_row_daily : DataFrame :=
  mkDataFrame [0; 86400]%Z
    [ ("Open", [98; 101]); ("High", [105; 104]); ("Low", [95; 99]);
      ("Close", [100; 102]); ("Volume", [120000; 80000]) ].

Definition one_row_daily : DataFrame :=
  mkDataFrame [86400]%Z
    [ ("Open", [101]); ("High", [104]); ("Low", [99]); ("Close", [102]);
      ("Volume", [80000]) ].

(** A provider: "GONE" has no intraday bars, "NEWCO" has one daily session
    only, every other ticker has two sessions and three bars. *)
Definition sample_history (ticker period interval : string) : DataFrame :=
  if String.eqb period "2d" then
    if String.eqb ticker "NEWCO" then one_row_daily else two_row_daily
  else
    if String.eqb ticker "GONE" then zero_bar_intraday else three_bar_intraday.

(** The two directional rules as propositions. *)
Definition long_rule (price e5 e12 e34 e50 : Q) : Prop :=
  price > e34 /\ price > e50 /\ e5 > e12.

Definition short_rule (price e5 e12 e34 e50 : Q) : Prop :=
  price < e34 /\ price < e50 /\ e5 < e12.

(* ================================================================== *)
(** ** The watchlist file *)

(** [c.isspace()] for an ASCII character: tab to carriage return, the four
    separators 28 to 31, and the space. *)
Definition is_space (c : ascii) : bool :=
  let n := nat_of_ascii c in
  ((9 <=? n) && (n <=? 13) || (28 <=? n) && (n <=? 32))%nat%bool.

(** [c.upper()] for an ASCII character. *)
Definition upper_char (c : ascii) : ascii :=
  let n := nat_of_ascii c in
  if ((97 <=? n) && (n <=? 122))%nat%bool then ascii_of_nat (n - 32) else c.

(** [s.upper()], [s.lstrip()], [s.rstrip()], [s.strip()] on ASCII text. *)
Fixpoint upper (s : string) : string :=
  match s with
  | EmptyString => EmptyString
  | String c s' => String (upper_char c) (upper s')
  end.

Fixpoint lstrip (s : string) : string :=
  match s with
  | EmptyString => EmptyString
  | String c s' => if is_space c then lstrip s' else s
  end.

Fixpoint rstrip (s : string) : string :=
  match s with
  | EmptyString => EmptyString
  | String c s' =>
      match rstrip s' with
      | EmptyString => if is_space c then EmptyString else String c EmptyString
      | r => String c r
      end
  end.

Definition strip (s : string) : string := rstrip (lstrip s).

(** Truth value of a string: non-empty. *)
Definition truthy (s : string) : bool :=
  match s with
  | EmptyString => false
  | String _ _ => true
  end.

(** [[""] + [line.strip().upper() for line in f if line.strip()]], on the
    lines of the file as iteration yields them (each with its line end). *)
Definition load_watchlist (lines : list string) : list string :=
  ("" :: map (fun line => upper (strip line))
           (filter (fun line => truthy (strip line)) lines))%list.

Definition newline : string := String (ascii_of_nat 10) EmptyString.

(** The tickers "Analyze All Stocks" passes on: [watchlist[1:]]. *)
Definition all_stocks (lines : list string) : list string :=
  tl (load_watchlist lines).

(** A file with blank lines, padding and mixed case. *)
Definition sample_watchlist_lines : list string :=
  [ "aapl" ++ newline; newline; "  Msft " ++ newline; "   " ++ newline;
    "GOOG" ].

(** What an entry of the watchlist looks like. *)
Definition normal_ticker (t : string) : Prop :=
  t <> "" /\ lstrip t = t /\ rstrip t = t /\ upper t = t.

(** The five levels of a pivot dictionary. *)
Definition levels (pivots : dict Q) (r2 r1 pp s1 s2 : Q) : Prop :=
  dict_find pivots "R2" = Some r2 /\
  dict_find pivots "R1" = Some r1 /\
  dict_find pivots "PP" = Some pp /\
  dict_find pivots "S1" = Some s1 /\
  dict_find pivots "S2" = Some s2.

(** A session without a Low field. *)
Definition session_without_low : Row :=
  [ ("Open", 98); ("High", 105); ("Close", 100); ("Volume", 120000) ].

(** The last row of a frame with at least one row. *)
Definition last_row (data : DataFrame) : Row :=
  map (fun kc => (fst kc, nth (List.length (index data) - 1) (snd kc) 0))
      (columns data).

(** A last row that has no EMA50 field. *)
Definition row_without_ema50 (price e34 : Q) : Row :=
  [ ("Close", price); ("EMA5", 3); ("EMA12", 2); ("EMA34", e34) ].

(** The columns the chart reads, in the order it reads them. *)
Definition chart_columns : list string :=
  [ "Open"; "High"; "Low"; "Close"; "EMA34"; "EMA50"; "EMA5"; "EMA12";
    "Volume" ].

(** What the page shows for a ticker whose analysis completes. *)
Definition analysed (ticker : string) (pivots : dict Q) (v : verdict)
    (fig : Figure) : list element :=
  [ Divider; Header ("Analysis for: " ++ ticker);
    Metric "Current Price" ("$" ++ format_2f (current_price v));
    Metric "Signal" (signal v);
    Text ("**Reason:** " ++ reason v);
    Text ("**Risk/Stop:** " ++ stop_loss v);
    Json pivots;
    PlotlyChart fig ].

(** The first message of a batch. *)
Definition fetching (n : nat) : element :=
  StatusInfo ("Fetching data for " ++ str_Z (Z.of_nat n)
                ++ " stock(s)... Please wait.").

(** An intraday frame without the Volume column. *)
Definition no_volume_intraday : DataFrame :=
  mkDataFrame [0; 900; 1800]%Z
    [ ("Open", [10; 10; 20]); ("High", [11; 21; 20]); ("Low", [9; 10; 14]);
      ("Close", [10; 20; 15]) ].

(** A provider whose intraday frames lack Volume for "NOVOL". *)
Definition patchy_history (ticker period interval : string) : DataFrame :=
  if String.eqb period "2d" then two_row_daily
  else if String.eqb ticker "NOVOL" then no_volume_intraday
       else three_bar_intraday.

(** A string of white space only. *)
Fixpoint all_space (s : string) : bool :=
  match s with
  | EmptyString => true
  | String c r => (is_space c && all_space r)%bool
  end.

Definition first_char (s : string) : option ascii :=
  match s with
  | EmptyString => None
  | String c _ => Some c
  end.

Fixpoint last_char (s : string) : option ascii :=
  match s with
  | EmptyString => None
  | String c EmptyString => Some c
  | String _ r => last_char r
  end.

(** There is a character and it is not white space. *)
Definition solid (c : option ascii) : Prop :=
  match c with
  | Some c => is_space c = false
  | None => False
  end.

(** [t] is the ticker of [line]: the line is white space, then a text that
    begins and ends with other characters, then white space, and [t] is
    that text in upper case. *)
Definition ticker_of_line (line t : string) : Prop :=
  exists a core b,
    line = a ++ core ++ b /\
    all_space a = true /\ all_space b = true /\
    solid (first_char core) /\ solid (last_char core) /\
    t = upper core.

(* ================================================================== *)
(** ** Binary floating point *)

Module Float64.

(** Rounding to the nearest double, ties to even, of an exact result: 53
    significant bits, gradual underflow down to 2^-1074.  The largest
    finite double is not modelled: beyond it the exponent keeps growing. *)
Definition scale : Z := 2 ^ 1074.

(** How many bits the scaled magnitude has beyond 53. *)
Definition shift (X : Q) : Z := Z.max 0 (Z.log2 (Qfloor X) - 52).

Definition round_magnitude (x : Q) : Q :=
  let X := x * inject_Z scale in
  let s := shift X in
  inject_Z (round_half_even (X / inject_Z (2 ^ s)) * 2 ^ s) / inject_Z scale.

Definition round (x : Q) : Q :=
  if Py.lt x 0 then - round_magnitude (- x) else round_magnitude x.

End Float64.

(** The rounding on magnitudes scaled to integers. *)
Definition round_scaled (X : Q) : Z :=
  (round_half_even (X / inject_Z (2 ^ Float64.shift X))
   * 2 ^ Float64.shift X)%Z.

(** Arithmetic in which every operation is followed by the rounding [rnd];
    [Float64.round] gives the arithmetic of the source, the identity gives
    exact arithmetic. *)
Module Rounded.

Section Ops.

Variable rnd : Q -> Q.

Definition add (x y : Q) : Q := rnd (x + y).
Definition sub (x y : Q) : Q := rnd (x - y).
Definition mul (x y : Q) : Q := rnd (x * y).
Definition div (x y : Q) : Q := rnd (x / y).

Definition calculate_pivot_points (prev_day : Row) : result (dict Q) :=
  high <- dict_getitem prev_day "High" ;;
  low <- dict_getitem prev_day "Low" ;;
  close <- dict_getitem prev_day "Close" ;;
  let pp := div (add (add high low) close) 3 in
  Ok [ ("R2", add pp (sub high low));
       ("R1", sub (mul 2 pp) low);
       ("PP", pp);
       ("S1", sub (mul 2 pp) high);
       ("S2", sub pp (sub high low)) ].

End Ops.

End Rounded.

(** The double written [0.1] and a flat session at that price. *)
Definition one_tenth : Q := Float64.round (1 # 10).

Definition session_flat (p : Q) : Row :=
  [ ("Open", p); ("High", p); ("Low", p); ("Close", p); ("Volume", 1000) ].

(** A flat session at the double written [871.3], and a session whose high
    lies below its low. *)
Definition price_871_3 : Q := Float64.round (8713 # 10).

Definition session_high_below_low : Row :=
  [ ("Open", 100); ("High", 95); ("Low", 105); ("Close", 100);
    ("Volume", 120000) ].

(** The bound below which no operation on a session overflows. *)
Definition price_bound : Q := inject_Z (2 ^ 1021).

(** A dictionary of levels with every fraction in lowest terms. *)
Definition reduced (pivots : dict Q) : dict Q :=
  map (fun lv => (fst lv, Qred (snd lv))) pivots.

(* ================================================================== *)
(** ** Reading a number printed with two decimals *)

(** Cuts a string at its first point. *)
Fixpoint split_point (s : string) : option (string * string) :=
  match s with
  | EmptyString => None
  | String c r =>
      if Ascii.eqb c "." then Some (EmptyString, r)
      else match split_point r with
           | Some (i, f) => Some (String c i, f)
           | None => None
           end
  end.

(** The digits before the point: a decimal numeral without superfluous
    leading zeros. *)
Definition read_whole (s : string) : option N :=
  match NilZero.uint_of_string s with
  | Some u => if Decimal.uint_beq (Decimal.unorm u) u
              then Some (N.of_uint u) else None
  | None => None
  end.

(** The digits after the point: exactly two. *)
Definition read_cents (s : string) : option N :=
  match s with
  | String _ (String _ EmptyString) =>
      option_map N.of_uint (NilEmpty.uint_of_string s)
  | _ => None
  end.

(** Reads whole.dd; gives the number of hundredths. *)
Definition read_unsigned (body : string) : option N :=
  match split_point body with
  | Some (i, f) =>
      match read_whole i, read_cents f with
      | Some w, Some c => Some (100 * w + c)%N
      | _, _ => None
      end
  | None => None
  end.

(** Reads [-]whole.dd; gives the sign and the number of hundredths. *)
Definition read_2f (s : string) : option (bool * N) :=
  match s with
  | String c r =>
      if Ascii.eqb c "-" then option_map (pair true) (read_unsigned r)
      else option_map (pair false) (read_unsigned s)
  | EmptyString => None
  end.

(** [s] is [x] printed with two decimals: it reads back as the sign of [x]
    and the count of hundredths nearest to the magnitude of [x], the even
    count when two are equally near. *)
Definition two_decimals_of (x : Q) (s : string) : Prop :=
  exists n : N,
    read_2f s = Some (Py.lt x 0, n) /\
    Qabs (inject_Z (Z.of_N n) / 100 - Qabs x) <= 1 # 200 /\
    (Qabs (inject_Z (Z.of_N n) / 100 - Qabs x) == 1 # 200 -> N.even n = true).

(** One bar whose slow averages have more than two decimals. *)
Definition fractional_bar_intraday : DataFrame :=
  mkDataFrame [0]%Z
    [ ("Open", [119]); ("High", [121]); ("Low", [118]); ("Close", [120]);
      ("Volume", [1000]);
      ("EMA5", [50]); ("EMA8", [48]); ("EMA9", [47]); ("EMA12", [40]);
      ("EMA34", [110126 # 1000]); ("EMA50", [108125 # 1000]) ].

(** Three bars at one price. *)
Definition flat_three_bar_intraday : DataFrame :=
  mkDataFrame [0; 900; 1800]%Z
    [ ("Open", [100; 100; 100]); ("High", [100; 100; 100]);
      ("Low", [100; 100; 100]); ("Close", [100; 100; 100]);
      ("Volume", [300; 500; 400]) ].

(* ================================================================== *)
(** ** Basic facts about the runtime model *)

Lemma lt_iff (x y : Q) : Py.lt x y = true <-> x < y.
Proof.
  unfold Py.lt. rewrite negb_true_iff, <- not_true_iff_false, Qle_bool_iff.
  split; intro H; [ apply Qnot_le_lt | apply Qlt_not_le ]; exact H.
Qed.

Lemma lt_reflect (x y : Q) : reflect (x < y) (Py.lt x y).
Proof. apply iff_reflect. symmetry. apply lt_iff. Qed.

Lemma gt_reflect (x y : Q) : reflect (y < x) (Py.gt x y).
Proof. unfold Py.gt. apply lt_reflect. Qed.

Lemma dict_getitem_find {V} (d : dict V) (k : string) (v : V) :
  dict_getitem d k = Ok v <-> dict_find d k = Some v.
Proof.
  unfold dict_getitem. destruct (dict_find d k); split; congruence.
Qed.

Lemma dict_find_setitem {V} (d : dict V) (k k' : string) (v : V) :
  dict_find (dict_setitem d k v) k' =
  if String.eqb k k' then Some v else dict_find d k'.
Proof.
  induction d as [| [k0 v0] d IH]; simpl.
  - reflexivity.
  - destruct (String.eqb k0 k) eqn:E0; simpl.
    + apply String.eqb_eq in E0; subst k0.
      destruct (String.eqb k k'); reflexivity.
    + destruct (String.eqb k0 k') eqn:E1.
      * apply String.eqb_eq in E1; subst k0.
        rewrite String.eqb_sym, E0. reflexivity.
      * exact IH.
Qed.

Lemma getitem_setitem (d : DataFrame) (k k' : string) (s : Series) :
  getitem (setitem d k s) k' =
  if String.eqb k k' then Ok s else getitem d k'.
Proof.
  unfold getitem, setitem, dict_getitem; simpl.
  rewrite dict_find_setitem. destruct (String.eqb k k'); reflexivity.
Qed.

(* ================================================================== *)
(** ** Pivot points *)

Lemma calculate_pivot_points_value (prev_day : Row) (high low close : Q) :
  dict_getitem prev_day "High" = Ok high ->
  dict_getitem prev_day "Low" = Ok low ->
  dict_getitem prev_day "Close" = Ok close ->
  calculate_pivot_points prev_day =
  Ok [ ("R2", (high + low + close) / 3 + (high - low));
       ("R1", 2 * ((high + low + close) / 3) - low);
       ("PP", (high + low + close) / 3);
       ("S1", 2 * ((high + low + close) / 3) - high);
       ("S2", (high + low + close) / 3 - (high - low)) ].
Proof.
  intros Hh Hl Hc. unfold calculate_pivot_points.
  rewrite Hh; simpl. rewrite Hl; simpl. rewrite Hc; simpl. reflexivity.
Qed.

(** C2.  For every prior session that carries High, Low and Close, the
    pivots are the dictionary with the keys R2, R1, PP, S1, S2 (in this
    order) where PP = (high + low + close) / 3, R1 = 2*PP - low,
    S1 = 2*PP - high, R2 = PP + (high - low), S2 = PP - (high - low); and the
    session high 105, low 95, close 100 gives PP 100, R1 105, S1 95, R2 110,
    S2 90. *)
Theorem pivot_formulas :
  (forall (prev_day : Row) (high low close : Q),
      dict_getitem prev_day "High" = Ok high ->
      dict_getitem prev_day "Low" = Ok low ->
      dict_getitem prev_day "Close" = Ok close ->
      exists pivots PP,
        calculate_pivot_points prev_day = Ok pivots /\
        map fst pivots = ["R2"; "R1"; "PP"; "S1"; "S2"] /\
        PP = (high + low + close) / 3 /\
        dict_find pivots "PP" = Some PP /\
        dict_find pivots "R1" = Some (2 * PP - low) /\
        dict_find pivots "S1" = Some (2 * PP - high) /\
        dict_find pivots "R2" = Some (PP + (high - low)) /\
        dict_find pivots "S2" = Some (PP - (high - low)))
  /\
  (exists pivots,
      calculate_pivot_points session_105_95_100 = Ok pivots /\
      map (fun lv => (fst lv, Qred (snd lv))) pivots =
      [ ("R2", 110); ("R1", 105); ("PP", 100); ("S1", 95); ("S2", 90) ]).
Proof.
  split.
  - intros prev_day high low close Hh Hl Hc.
    eexists; exists ((high + low + close) / 3).
    split; [ apply (calculate_pivot_points_value _ _ _ _ Hh Hl Hc) | ].
    repeat split.
  - eexists; split; reflexivity.
Qed.

Lemma pivot_formulas_witness :
  exists pivots PP,
    calculate_pivot_points session_105_95_100 = Ok pivots /\
    map fst pivots = ["R2"; "R1"; "PP"; "S1"; "S2"] /\
    PP = (105 + 95 + 100) / 3 /\
    dict_find pivots "PP" = Some PP /\
    dict_find pivots "R1" = Some (2 * PP - 95) /\
    dict_find pivots "S1" = Some (2 * PP - 105) /\
    dict_find pivots "R2" = Some (PP + (105 - 95)) /\
    dict_find pivots "S2" = Some (PP - (105 - 95)).
Proof.
  apply (proj1 pivot_formulas session_105_95_100 105 95 100); reflexivity.
Defined.

(* ================================================================== *)
(** ** Rounding to the nearest double *)

Lemma round_half_even_floor (x : Q) :
  (Qfloor x <= round_half_even x <= Qfloor x + 1)%Z.
Proof.
  unfold round_half_even.
  destruct (Qcompare (x - inject_Z (Qfloor x)) (1 # 2));
    [ destruct (Z.even (Qfloor x)) | | ]; lia.
Qed.

Lemma round_half_even_inject_Z (n : Z) : round_half_even (inject_Z n) = n.
Proof.
  unfold round_half_even. rewrite Qfloor_Z.
  assert (H : inject_Z n - inject_Z n < 1 # 2) by lra.
  rewrite Qlt_alt in H. rewrite H. reflexivity.
Qed.

Lemma round_half_even_mono (x y : Q) :
  x <= y -> (round_half_even x <= round_half_even y)%Z.
Proof.
  intro H. pose proof (Qfloor_resp_le _ _ H) as Hf.
  destruct (Z.eq_dec (Qfloor x) (Qfloor y)) as [E | E].
  - unfold round_half_even. rewrite <- E.
    destruct (Qcompare_spec (x - inject_Z (Qfloor x)) (1 # 2)),
      (Qcompare_spec (y - inject_Z (Qfloor x)) (1 # 2));
      destruct (Z.even (Qfloor x)); try lia; exfalso; lra.
  - pose proof (round_half_even_floor x).
    pose proof (round_half_even_floor y). lia.
Qed.

Lemma round_half_even_compat (x y : Q) :
  x == y -> round_half_even x = round_half_even y.
Proof.
  intro H. apply Z.le_antisymm; apply round_half_even_mono; lra.
Qed.

Lemma inject_Z_pow2_pos (k : Z) : (0 <= k)%Z -> 0 < inject_Z (2 ^ k).
Proof.
  intro H. change 0 with (inject_Z 0). rewrite <- Zlt_Qlt.
  apply Z.pow_pos_nonneg; lia.
Qed.

Lemma round_half_even_scaled (a k : Z) :
  (0 <= k)%Z ->
  round_half_even (inject_Z (a * 2 ^ k) / inject_Z (2 ^ k)) = a.
Proof.
  intro Hk. rewrite <- (round_half_even_inject_Z a) at 2.
  apply round_half_even_compat.
  pose proof (inject_Z_pow2_pos k Hk) as Hp.
  rewrite inject_Z_mult. field. lra.
Qed.

Lemma Qfloor_nonneg (X : Q) : 0 <= X -> (0 <= Qfloor X)%Z.
Proof.
  intro H. change 0%Z with (Qfloor 0). apply Qfloor_resp_le. exact H.
Qed.

Lemma shift_nonneg (X : Q) : (0 <= Float64.shift X)%Z.
Proof. unfold Float64.shift. lia. Qed.

Lemma shift_mono (X Y : Q) :
  0 <= X -> X <= Y -> (Float64.shift X <= Float64.shift Y)%Z.
Proof.
  intros H0 H. unfold Float64.shift.
  pose proof (Qfloor_resp_le _ _ H) as Hf.
  pose proof (Z.log2_le_mono _ _ Hf). lia.
Qed.

Lemma shift_upper (X : Q) :
  0 <= X -> X < inject_Z (2 ^ (Float64.shift X + 53)).
Proof.
  intro H0. unfold Float64.shift.
  pose proof (Qfloor_nonneg X H0) as HN.
  pose proof (Qlt_floor X) as HX.
  assert (Hle : (Qfloor X + 1 <= 2 ^ (Z.max 0 (Z.log2 (Qfloor X) - 52) + 53))%Z).
  { destruct (Z.eq_dec (Qfloor X) 0) as [E | E].
    - rewrite E. cbn [Z.log2 Z.add].
      assert (2 ^ 0 <= 2 ^ (Z.max 0 (0 - 52) + 53))%Z
        by (apply Z.pow_le_mono_r; lia).
      change (2 ^ 0)%Z with 1%Z in *. lia.
    - assert (Hpos : (0 < Qfloor X)%Z) by lia.
      pose proof (Z.log2_spec _ Hpos) as [_ Hlt].
      assert (2 ^ Z.succ (Z.log2 (Qfloor X))
              <= 2 ^ (Z.max 0 (Z.log2 (Qfloor X) - 52) + 53))%Z
        by (apply Z.pow_le_mono_r; lia).
      lia. }
  rewrite Zle_Qle in Hle. lra.
Qed.

Lemma shift_lower (X : Q) :
  (0 < Float64.shift X)%Z -> inject_Z (2 ^ (Float64.shift X + 52)) <= X.
Proof.
  unfold Float64.shift. intro Hs.
  assert (Hlog : (52 < Z.log2 (Qfloor X))%Z) by lia.
  assert (Hpos : (0 < Qfloor X)%Z).
  { destruct (Z.lt_ge_cases 0 (Qfloor X)) as [Hp | Hn]; [ exact Hp | ].
    rewrite (Z.log2_nonpos _ Hn) in Hlog. lia. }
  pose proof (Z.log2_spec _ Hpos) as [Hle _].
  replace (Z.max 0 (Z.log2 (Qfloor X) - 52) + 52)%Z
    with (Z.log2 (Qfloor X)) by lia.
  rewrite Zle_Qle in Hle. pose proof (Qfloor_le X). lra.
Qed.

Lemma round_magnitude_scaled (x : Q) :
  Float64.round_magnitude x =
  inject_Z (round_scaled (x * inject_Z Float64.scale)) / inject_Z Float64.scale.
Proof. reflexivity. Qed.

Lemma round_scaled_bounds (X : Q) :
  0 <= X ->
  (0 <= round_half_even (X / inject_Z (2 ^ Float64.shift X)) <= 2 ^ 53)%Z /\
  ((0 < Float64.shift X)%Z ->
   (2 ^ 52 <= round_half_even (X / inject_Z (2 ^ Float64.shift X)))%Z).
Proof.
  intro H0.
  pose proof (shift_nonneg X) as Hs.
  pose proof (inject_Z_pow2_pos _ Hs) as Hp.
  pose proof (shift_upper X H0) as Hu.
  rewrite Z.pow_add_r, inject_Z_mult in Hu by lia.
  split; [ split | ].
  - rewrite <- (round_half_even_inject_Z 0). apply round_half_even_mono.
    apply Qle_shift_div_l; [ exact Hp | ]. change (inject_Z 0) with 0. lra.
  - rewrite <- (round_half_even_inject_Z (2 ^ 53)).
    apply round_half_even_mono.
    apply Qle_shift_div_r; [ exact Hp | ]. lra.
  - intro Hpos. pose proof (shift_lower X Hpos) as Hl.
    rewrite Z.pow_add_r, inject_Z_mult in Hl by lia.
    rewrite <- (round_half_even_inject_Z (2 ^ 52)).
    apply round_half_even_mono.
    apply Qle_shift_div_l; [ exact Hp | ]. lra.
Qed.

Lemma round_scaled_mono (X Y : Q) :
  0 <= X -> X <= Y -> (round_scaled X <= round_scaled Y)%Z.
Proof.
  intros H0 H. assert (H0' : 0 <= Y) by lra.
  pose proof (shift_mono X Y H0 H) as Hsm.
  pose proof (shift_nonneg X) as Hsx.
  destruct (round_scaled_bounds X H0) as [[Hx0 Hx1] _].
  destruct (round_scaled_bounds Y H0') as [[Hy0 Hy1] Hy2].
  unfold round_scaled.
  destruct (Z.eq_dec (Float64.shift X) (Float64.shift Y)) as [E | E].
  - rewrite <- E.
    apply Z.mul_le_mono_nonneg_r; [ apply Z.pow_nonneg; lia | ].
    apply round_half_even_mono.
    pose proof (inject_Z_pow2_pos _ Hsx) as Hp.
    apply Qle_shift_div_l; [ exact Hp | ].
    assert (Hd : X / inject_Z (2 ^ Float64.shift X)
                 * inject_Z (2 ^ Float64.shift X) == X) by (field; lra).
    lra.
  - assert (Hlt : (Float64.shift X < Float64.shift Y)%Z) by lia.
    specialize (Hy2 ltac:(lia)).
    set (sx := Float64.shift X) in *. set (sy := Float64.shift Y) in *.
    set (mx := round_half_even (X / inject_Z (2 ^ sx))) in *.
    set (my := round_half_even (Y / inject_Z (2 ^ sy))) in *.
    assert (Hpx : (0 < 2 ^ sx)%Z) by (apply Z.pow_pos_nonneg; lia).
    assert (Hpy : (0 < 2 ^ sy)%Z) by (apply Z.pow_pos_nonneg; lia).
    assert (H1 : (mx * 2 ^ sx <= 2 ^ 53 * 2 ^ sx)%Z)
      by (apply Z.mul_le_mono_nonneg_r; lia).
    assert (H2 : (2 ^ 52 * 2 ^ sy <= my * 2 ^ sy)%Z)
      by (apply Z.mul_le_mono_nonneg_r; lia).
    assert (H3 : (2 ^ 53 * 2 ^ sx <= 2 ^ 52 * 2 ^ sy)%Z).
    { rewrite <- !Z.pow_add_r by lia. apply Z.pow_le_mono_r; lia. }
    lia.
Qed.

Lemma round_scaled_compat (X Y : Q) :
  0 <= X -> X == Y -> round_scaled X = round_scaled Y.
Proof.
  intros H0 H. apply Z.le_antisymm; apply round_scaled_mono; lra.
Qed.

Lemma round_scaled_nonneg (X : Q) : 0 <= X -> (0 <= round_scaled X)%Z.
Proof.
  intro H0. destruct (round_scaled_bounds X H0) as [[Hm _] _].
  unfold round_scaled. apply Z.mul_nonneg_nonneg; [ exact Hm | ].
  apply Z.pow_nonneg. lia.
Qed.

Lemma round_scaled_inject_Z (m s : Z) :
  (0 <= s)%Z -> (0 <= m <= 2 ^ 53)%Z -> ((0 < s)%Z -> (2 ^ 52 <= m)%Z) ->
  round_scaled (inject_Z (m * 2 ^ s)) = (m * 2 ^ s)%Z.
Proof.
  intros Hs [Hm0 Hm1] Hlow.
  unfold round_scaled, Float64.shift. rewrite Qfloor_Z.
  destruct (Z.eq_dec m 0) as [-> | Hne].
  - rewrite Z.mul_0_l.
    replace (Z.max 0 (Z.log2 0 - 52)) with 0%Z by reflexivity. lia.
  - assert (Hpos : (0 < m)%Z) by lia.
    rewrite (Z.log2_mul_pow2 m s Hpos Hs).
    destruct (Z.eq_dec m (2 ^ 53)) as [-> | Hne53].
    + rewrite Z.log2_pow2 by lia.
      replace (Z.max 0 (s + 53 - 52)) with (s + 1)%Z by lia.
      replace (2 ^ 53 * 2 ^ s)%Z with (2 ^ 52 * 2 ^ (s + 1))%Z
        by (rewrite <- !Z.pow_add_r by lia; f_equal; lia).
      rewrite round_half_even_scaled by lia. reflexivity.
    + assert (Hlt : (m < 2 ^ 53)%Z) by lia.
      assert (Hlog : (Z.log2 m < 53)%Z)
        by (apply Z.log2_lt_pow2; assumption).
      destruct (Z.eq_dec s 0) as [-> | Hs0].
      * replace (Z.max 0 (0 + Z.log2 m - 52)) with 0%Z by lia.
        rewrite round_half_even_scaled by lia. reflexivity.
      * assert (Hm52 : (2 ^ 52 <= m)%Z) by (apply Hlow; lia).
        assert (Hl52 : Z.log2 m = 52%Z).
        { apply Z.log2_unique; [ lia | ].
          change (2 ^ (52 + 1))%Z with (2 ^ 53)%Z. lia. }
        rewrite Hl52. replace (Z.max 0 (s + 52 - 52)) with s by lia.
        rewrite round_half_even_scaled by lia. reflexivity.
Qed.

Lemma round_scaled_idem (X : Q) :
  0 <= X -> round_scaled (inject_Z (round_scaled X)) = round_scaled X.
Proof.
  intro H0. destruct (round_scaled_bounds X H0) as [Hb Hl].
  unfold round_scaled at 2 3.
  apply round_scaled_inject_Z; [ apply shift_nonneg | exact Hb | exact Hl ].
Qed.

Lemma scale_pos : 0 < inject_Z Float64.scale.
Proof. unfold Float64.scale. apply inject_Z_pow2_pos. lia. Qed.

Lemma round_magnitude_nonneg (x : Q) : 0 <= x -> 0 <= Float64.round_magnitude x.
Proof.
  intro H0. rewrite round_magnitude_scaled.
  pose proof scale_pos as Hc.
  apply Qle_shift_div_l; [ exact Hc | ].
  assert (HX : 0 <= x * inject_Z Float64.scale)
    by (apply Qmult_le_0_compat; lra).
  pose proof (round_scaled_nonneg _ HX) as Hr.
  rewrite Zle_Qle in Hr. change (inject_Z 0) with 0 in Hr. lra.
Qed.

Lemma round_magnitude_mono (x y : Q) :
  0 <= x -> x <= y -> Float64.round_magnitude x <= Float64.round_magnitude y.
Proof.
  intros H0 H. rewrite !round_magnitude_scaled.
  pose proof scale_pos as Hc.
  assert (HX : 0 <= x * inject_Z Float64.scale)
    by (apply Qmult_le_0_compat; lra).
  assert (HXY : x * inject_Z Float64.scale <= y * inject_Z Float64.scale)
    by (apply Qmult_le_compat_r; lra).
  pose proof (round_scaled_mono _ _ HX HXY) as Hr.
  rewrite Zle_Qle in Hr.
  apply Qle_shift_div_l; [ exact Hc | ].
  assert (Hd : inject_Z (round_scaled (x * inject_Z Float64.scale))
               / inject_Z Float64.scale * inject_Z Float64.scale
               == inject_Z (round_scaled (x * inject_Z Float64.scale)))
    by (field; lra).
  lra.
Qed.

Lemma round_magnitude_compat (x y : Q) :
  0 <= x -> x == y -> Float64.round_magnitude x == Float64.round_magnitude y.
Proof.
  intros H0 H. apply Qle_antisym; apply round_magnitude_mono; lra.
Qed.

Lemma round_magnitude_idem (x : Q) :
  0 <= x ->
  Float64.round_magnitude (Float64.round_magnitude x)
  == Float64.round_magnitude x.
Proof.
  intro H0. pose proof scale_pos as Hc.
  assert (HX : 0 <= x * inject_Z Float64.scale)
    by (apply Qmult_le_0_compat; lra).
  rewrite (round_magnitude_scaled (Float64.round_magnitude x)).
  rewrite (round_magnitude_scaled x) at 2.
  rewrite (round_scaled_compat
             (Float64.round_magnitude x * inject_Z Float64.scale)
             (inject_Z (round_scaled (x * inject_Z Float64.scale)))).
  - rewrite (round_scaled_idem _ HX). reflexivity.
  - apply Qmult_le_0_compat; [ apply round_magnitude_nonneg; exact H0 | lra ].
  - rewrite round_magnitude_scaled. field. lra.
Qed.

Lemma round_magnitude_zero : Float64.round_magnitude 0 == 0.
Proof. reflexivity. Qed.

(** The three facts about the rounding that the arithmetic below uses. *)
Lemma round_mono (x y : Q) : x <= y -> Float64.round x <= Float64.round y.
Proof.
  intro H. unfold Float64.round.
  destruct (lt_reflect x 0) as [Hx | Hx], (lt_reflect y 0) as [Hy | Hy].
  - assert (Hm : Float64.round_magnitude (- y) <= Float64.round_magnitude (- x))
      by (apply round_magnitude_mono; lra).
    lra.
  - assert (H1 : 0 <= Float64.round_magnitude (- x))
      by (apply round_magnitude_nonneg; lra).
    assert (H2 : 0 <= Float64.round_magnitude y)
      by (apply round_magnitude_nonneg; lra).
    lra.
  - exfalso. lra.
  - apply round_magnitude_mono; lra.
Qed.

Lemma round_zero : Float64.round 0 == 0.
Proof. reflexivity. Qed.

Lemma round_idem (x : Q) : Float64.round (Float64.round x) == Float64.round x.
Proof.
  unfold Float64.round at 2 3.
  destruct (lt_reflect x 0) as [Hx | Hx].
  - assert (Hn : 0 <= - x) by lra.
    pose proof (round_magnitude_nonneg _ Hn) as Hm.
    unfold Float64.round.
    destruct (lt_reflect (- Float64.round_magnitude (- x)) 0) as [Hr | Hr].
    + rewrite (round_magnitude_compat (- - Float64.round_magnitude (- x))
                 (Float64.round_magnitude (- x))) by lra.
      rewrite (round_magnitude_idem _ Hn). reflexivity.
    + assert (Hz : Float64.round_magnitude (- x) == 0) by lra.
      rewrite (round_magnitude_compat (- Float64.round_magnitude (- x)) 0)
        by lra.
      rewrite round_magnitude_zero. lra.
  - assert (Hn : 0 <= x) by lra.
    pose proof (round_magnitude_nonneg _ Hn) as Hm.
    unfold Float64.round.
    destruct (lt_reflect (Float64.round_magnitude x) 0) as [Hr | Hr];
      [ exfalso; lra | ].
    apply round_magnitude_idem. exact Hn.
Qed.

(* ================================================================== *)
(** ** Pivot points in rounded arithmetic *)

Section RoundedPivots.

Variable rnd : Q -> Q.
Hypothesis rnd_mono : forall x y, x <= y -> rnd x <= rnd y.
Hypothesis rnd_idem : forall x, rnd (rnd x) == rnd x.
Hypothesis rnd_zero : rnd 0 == 0.

Lemma rnd_compat (x y : Q) : x == y -> rnd x == rnd y.
Proof. intro H. apply Qle_antisym; apply rnd_mono; lra. Qed.

Lemma rounded_pivot_points_value (prev_day : Row) (high low close : Q) :
  dict_getitem prev_day "High" = Ok high ->
  dict_getitem prev_day "Low" = Ok low ->
  dict_getitem prev_day "Close" = Ok close ->
  let pp := rnd (rnd (rnd (high + low) + close) / 3) in
  Rounded.calculate_pivot_points rnd prev_day =
  Ok [ ("R2", rnd (pp + rnd (high - low)));
       ("R1", rnd (rnd (2 * pp) - low));
       ("PP", pp);
       ("S1", rnd (rnd (2 * pp) - high));
       ("S2", rnd (pp - rnd (high - low))) ].
Proof.
  intros Hh Hl Hc. unfold Rounded.calculate_pivot_points.
  rewrite Hh, Hl, Hc. reflexivity.
Qed.

(** The outer levels around PP, for a session with low <= high. *)
Lemma rounded_outer_levels (high low pp : Q) :
  low <= high ->
  rnd pp == pp ->
  rnd (pp - rnd (high - low)) <= pp /\
  pp <= rnd (pp + rnd (high - low)) /\
  rnd (rnd (2 * pp) - high) <= rnd (rnd (2 * pp) - low).
Proof.
  intros H Hpp.
  assert (Hd : 0 <= rnd (high - low)).
  { rewrite <- rnd_zero. apply rnd_mono. lra. }
  split; [ | split ].
  - rewrite <- Hpp at 2. apply rnd_mono. lra.
  - rewrite <- Hpp at 1. apply rnd_mono. lra.
  - apply rnd_mono. lra.
Qed.

(** The same levels for a session with high <= low. *)
Lemma rounded_outer_levels_inverted (high low pp : Q) :
  high <= low ->
  rnd pp == pp ->
  pp <= rnd (pp - rnd (high - low)) /\
  rnd (pp + rnd (high - low)) <= pp /\
  rnd (rnd (2 * pp) - low) <= rnd (rnd (2 * pp) - high).
Proof.
  intros H Hpp.
  assert (Hd : rnd (high - low) <= 0).
  { rewrite <- rnd_zero. apply rnd_mono. lra. }
  split; [ | split ].
  - rewrite <- Hpp at 1. apply rnd_mono. lra.
  - rewrite <- Hpp at 2. apply rnd_mono. lra.
  - apply rnd_mono. lra.
Qed.

End RoundedPivots.

Lemma exact_pivot_points (prev_day : Row) :
  Rounded.calculate_pivot_points (fun x => x) prev_day =
  calculate_pivot_points prev_day.
Proof. reflexivity. Qed.

Lemma float_pivot_points_levels (prev_day : Row) (high low close : Q) :
  dict_getitem prev_day "High" = Ok high ->
  dict_getitem prev_day "Low" = Ok low ->
  dict_getitem prev_day "Close" = Ok close ->
  exists pivots r2 r1 pp s1 s2,
    Rounded.calculate_pivot_points Float64.round prev_day = Ok pivots /\
    levels pivots r2 r1 pp s1 s2 /\
    Float64.round pp == pp /\
    r2 = Float64.round (pp + Float64.round (high - low)) /\
    r1 = Float64.round (Float64.round (2 * pp) - low) /\
    s1 = Float64.round (Float64.round (2 * pp) - high) /\
    s2 = Float64.round (pp - Float64.round (high - low)).
Proof.
  intros Hh Hl Hc. do 6 eexists.
  split; [ apply (rounded_pivot_points_value Float64.round _ _ _ _ Hh Hl Hc) | ].
  cbv zeta. split; [ repeat split | ].
  split; [ apply round_idem | ].
  repeat split.
Qed.

(** In the arithmetic of doubles the chain of the levels breaks: at high 10,
    low 0, close 100 (so high >= low) R2 lies below R1; at the flat session
    of price 0.1 (close between low and high) R2 lies below R1 and PP below
    S1; at the flat session of price 871.3, R1 lies below PP and S1 below
    S2. *)
Lemma pivot_chain_fails_in_doubles :
  (exists pivots r2 r1 pp s1 s2,
      Rounded.calculate_pivot_points Float64.round session_close_above_high
        = Ok pivots /\
      dict_getitem session_close_above_high "High" = Ok 10 /\
      dict_getitem session_close_above_high "Low" = Ok 0 /\
      0 <= 10 /\
      reduced pivots =
        [ ("R2", r2); ("R1", r1); ("PP", pp); ("S1", s1); ("S2", s2) ] /\
      r2 = 6567749456581973 # 140737488355328 /\
      r1 = 5160374573028693 # 70368744177664 /\
      r2 < r1) /\
  (exists pivots r2 r1 pp s1 s2,
      Rounded.calculate_pivot_points Float64.round (session_flat one_tenth)
        = Ok pivots /\
      reduced pivots =
        [ ("R2", r2); ("R1", r1); ("PP", pp); ("S1", s1); ("S2", s2) ] /\
      r2 = 7205759403792795 # 72057594037927936 /\
      r1 = 1801439850948199 # 18014398509481984 /\
      pp = r2 /\ s1 = r1 /\ s2 = r2 /\
      r2 < r1 /\ pp < s1) /\
  (exists pivots r2 r1 pp s1 s2,
      Rounded.calculate_pivot_points Float64.round (session_flat price_871_3)
        = Ok pivots /\
      reduced pivots =
        [ ("R2", r2); ("R1", r1); ("PP", pp); ("S1", s1); ("S2", s2) ] /\
      r2 = 7664035850249829 # 8796093022208 /\
      r1 = 1916008962562457 # 2199023255552 /\
      pp = r2 /\ s1 = r1 /\ s2 = r2 /\
      r1 < pp /\ s1 < s2).
Proof.
  split; [ | split ].
  - eexists. do 5 eexists.
    split; [ vm_compute; reflexivity | ].
    split; [ reflexivity | ]. split; [ reflexivity | ].
    split; [ discriminate | ].
    split; [ vm_compute; reflexivity | ].
    repeat split.
  - eexists. do 5 eexists.
    split; [ vm_compute; reflexivity | ].
    split; [ vm_compute; reflexivity | ].
    repeat split.
  - eexists. do 5 eexists.
    split; [ vm_compute; reflexivity | ].
    split; [ vm_compute; reflexivity | ].
    repeat split.
Qed.

(** C4 (amended).  In the arithmetic of doubles, for every prior session
    with high >= low whose prices do not exceed 2^1021 in magnitude, the
    computed levels satisfy S2 <= PP <= R2 and S1 <= R1, and when
    high == low they satisfy S2 == PP == R2 and S1 == R1. *)
Theorem pivot_order (prev_day : Row) (high low close : Q) :
  dict_getitem prev_day "High" = Ok high ->
  dict_getitem prev_day "Low" = Ok low ->
  dict_getitem prev_day "Close" = Ok close ->
  Qabs high <= price_bound -> Qabs low <= price_bound ->
  Qabs close <= price_bound ->
  low <= high ->
  exists pivots r2 r1 pp s1 s2,
    Rounded.calculate_pivot_points Float64.round prev_day = Ok pivots /\
    levels pivots r2 r1 pp s1 s2 /\
    s2 <= pp /\ pp <= r2 /\ s1 <= r1 /\
    (high == low -> s2 == pp /\ pp == r2 /\ s1 == r1).
Proof.
  intros Hh Hl Hc _ _ _ Hle.
  destruct (float_pivot_points_levels _ _ _ _ Hh Hl Hc)
    as (pv & r2 & r1 & pp & s1 & s2 & Hpv & Hlv & Hpp & -> & -> & -> & ->).
  exists pv. do 5 eexists. split; [ exact Hpv | ]. split; [ exact Hlv | ].
  destruct (rounded_outer_levels Float64.round round_mono round_zero
              high low pp Hle Hpp) as (H1 & H2 & H3).
  repeat split; try assumption.
  - destruct (rounded_outer_levels_inverted Float64.round round_mono round_zero
                high low pp) as (H4 & _ & _); [ lra | exact Hpp | ].
    apply Qle_antisym; assumption.
  - destruct (rounded_outer_levels_inverted Float64.round round_mono round_zero
                high low pp) as (_ & H5 & _); [ lra | exact Hpp | ].
    apply Qle_antisym; assumption.
  - destruct (rounded_outer_levels_inverted Float64.round round_mono round_zero
                high low pp) as (_ & _ & H6); [ lra | exact Hpp | ].
    apply Qle_antisym; assumption.
Qed.

Lemma pivot_order_witness :
  exists pivots r2 r1 pp s1 s2,
    Rounded.calculate_pivot_points Float64.round (session_flat one_tenth)
      = Ok pivots /\
    levels pivots r2 r1 pp s1 s2 /\
    s2 <= pp /\ pp <= r2 /\ s1 <= r1 /\
    (one_tenth == one_tenth -> s2 == pp /\ pp == r2 /\ s1 == r1).
Proof.
  apply (pivot_order (session_flat one_tenth) one_tenth one_tenth one_tenth);
    try reflexivity; vm_compute; intro H; discriminate H.
Defined.

(* ================================================================== *)
(** ** Exponential moving averages *)

Lemma alpha_of_span_eq (span : Z) :
  alpha_of_span span == 2 / (inject_Z span + 1).
Proof.
  unfold alpha_of_span, com_of_span.
  destruct (Z.eq_dec span (-1)) as [-> | Hne].
  - reflexivity.
  - assert (Hnz : ~ inject_Z span + 1 == 0).
    { intro H. apply Hne.
      apply (proj1 (inject_Z_injective span (-1))).
      change (inject_Z (-1)) with (-1 # 1). lra. }
    field. exact Hnz.
Qed.

Lemma ewm_from_length (alpha w : Q) (vals : Series) :
  List.length (ewm_from alpha w vals) = List.length vals.
Proof.
  revert w. induction vals as [| cur rest IH]; intro w; simpl.
  - reflexivity.
  - rewrite IH. reflexivity.
Qed.

Lemma ewm_mean_length (span : Z) (vals : Series) :
  List.length (ewm_mean span vals) = List.length vals.
Proof.
  destruct vals as [| v0 rest]; simpl.
  - reflexivity.
  - rewrite ewm_from_length. reflexivity.
Qed.

(** Each value of the scan is the weighted mean of its predecessor and the
    current observation. *)
Lemma ewm_from_step (alpha : Q) (vals : Series) :
  forall (w : Q) (i : nat),
    (i < List.length vals)%nat ->
    nth i (ewm_from alpha w vals) 0 =
    (1 - alpha) * nth i (w :: ewm_from alpha w vals) 0 + alpha * nth i vals 0.
Proof.
  induction vals as [| cur rest IH]; intros w i Hi; simpl in Hi.
  - lia.
  - destruct i as [| i].
    + reflexivity.
    + cbn [ewm_from nth]. apply IH. lia.
Qed.

Lemma ewm_mean_recurrence (span : Z) (vals : Series) :
  nth 0 (ewm_mean span vals) 0 = nth 0 vals 0 /\
  forall i, (S i < List.length vals)%nat ->
    nth (S i) (ewm_mean span vals) 0 ==
    nth i (ewm_mean span vals) 0
    + 2 / (inject_Z span + 1)
      * (nth (S i) vals 0 - nth i (ewm_mean span vals) 0).
Proof.
  destruct vals as [| v0 rest]; split; try reflexivity.
  - simpl; intros; lia.
  - intros i Hi. simpl in Hi.
    cbn [ewm_mean].
    change (nth (S i) (v0 :: rest) 0) with (nth i rest 0).
    change (nth (S i) (v0 :: ewm_from (alpha_of_span span) v0 rest) 0)
      with (nth i (ewm_from (alpha_of_span span) v0 rest) 0).
    rewrite ewm_from_step by lia.
    rewrite <- alpha_of_span_eq. ring.
Qed.

Lemma ewm_from_firstn (alpha : Q) (vals : Series) :
  forall (w : Q) (k : nat),
    ewm_from alpha w (firstn k vals) = firstn k (ewm_from alpha w vals).
Proof.
  induction vals as [| cur rest IH]; intros w k.
  - destruct k; reflexivity.
  - destruct k as [| k]; [ reflexivity | ].
    cbn [firstn ewm_from]. rewrite IH. reflexivity.
Qed.

Lemma ewm_mean_firstn (span : Z) (vals : Series) (k : nat) :
  ewm_mean span (firstn k vals) = firstn k (ewm_mean span vals).
Proof.
  destruct vals as [| v0 rest]; destruct k as [| k]; try reflexivity.
  cbn [firstn ewm_mean]. rewrite ewm_from_firstn. reflexivity.
Qed.

(** *** The engine: the six columns of [calculate_emas] *)

Lemma ema_name_not_close (period : Z) :
  String.eqb (ema_name period) "Close" = false.
Proof. reflexivity. Qed.

Lemma calculate_ema_ok (data : DataFrame) (closes : Series) (period : Z) :
  getitem data "Close" = Ok closes ->
  calculate_ema data period =
  Ok (setitem data (ema_name period) (ewm_mean period closes)).
Proof. intro H. unfold calculate_ema. rewrite H. reflexivity. Qed.

Lemma calculate_emas_loop_ok (closes : Series) (periods : list Z) :
  forall data,
    getitem data "Close" = Ok closes ->
    calculate_emas_loop periods data = Ok (with_emas closes periods data).
Proof.
  induction periods as [| p periods IH]; intros data H.
  - reflexivity.
  - cbn [calculate_emas_loop]. rewrite (calculate_ema_ok _ _ _ H).
    cbn [Py.bind]. rewrite IH.
    + reflexivity.
    + rewrite getitem_setitem, ema_name_not_close. exact H.
Qed.

Lemma with_emas_index (closes : Series) (periods : list Z) :
  forall data, index (with_emas closes periods data) = index data.
Proof.
  induction periods as [| p periods IH]; intro data.
  - reflexivity.
  - unfold with_emas in *. cbn [fold_left]. rewrite IH. reflexivity.
Qed.

Lemma with_emas_column (closes : Series) (data : DataFrame) (period : Z) :
  In period ema_periods ->
  getitem (with_emas closes ema_periods data) (ema_name period) =
  Ok (ewm_mean period closes).
Proof.
  unfold ema_periods, with_emas. cbn [fold_left].
  intros [<- | [<- | [<- | [<- | [<- | [<- | []]]]]]];
    repeat (rewrite getitem_setitem;
            match goal with
            | |- context [String.eqb ?a ?b] =>
                let v := eval vm_compute in (String.eqb a b) in
                change (String.eqb a b) with v; cbv iota
            end);
    reflexivity.
Qed.

(** *** Truncation commutes with the engine *)

Lemma getitem_head (k : nat) (data : DataFrame) (name : string) :
  getitem (head k data) name = result_map (firstn k) (getitem data name).
Proof.
  unfold getitem, head, dict_getitem, result_map. cbn [columns].
  induction (columns data) as [| [k0 c0] cols IH]; cbn [map dict_find fst snd].
  - reflexivity.
  - destruct (String.eqb k0 name); [ reflexivity | exact IH ].
Qed.

Lemma head_setitem (k : nat) (data : DataFrame) (name : string) (s : Series) :
  head k (setitem data name s) = setitem (head k data) name (firstn k s).
Proof.
  unfold head, setitem. cbn [index columns]. f_equal.
  induction (columns data) as [| [k0 c0] cols IH];
    cbn [map dict_setitem fst snd].
  - reflexivity.
  - destruct (String.eqb k0 name); cbn [map fst snd].
    + reflexivity.
    + rewrite IH. reflexivity.
Qed.

Lemma calculate_ema_head (k : nat) (data : DataFrame) (period : Z) :
  calculate_ema (head k data) period =
  result_map (head k) (calculate_ema data period).
Proof.
  unfold calculate_ema. rewrite getitem_head. unfold result_map.
  destruct (getitem data "Close") as [closes | e]; cbn [Py.bind].
  - rewrite head_setitem, ewm_mean_firstn. reflexivity.
  - reflexivity.
Qed.

Lemma calculate_emas_loop_head (k : nat) (periods : list Z) :
  forall data,
    calculate_emas_loop periods (head k data) =
    result_map (head k) (calculate_emas_loop periods data).
Proof.
  induction periods as [| p periods IH]; intro data.
  - reflexivity.
  - cbn [calculate_emas_loop]. rewrite calculate_ema_head.
    unfold result_map at 1.
    destruct (calculate_ema data p) as [d' | e]; cbn [Py.bind].
    + apply IH.
    + reflexivity.
Qed.

Lemma dict_find_In {V} (d : dict V) (k : string) (v : V) :
  dict_find d k = Some v -> In (k, v) d.
Proof.
  induction d as [| [k0 v0] d IH]; cbn [dict_find]; intro H.
  - discriminate H.
  - destruct (String.eqb k0 k) eqn:E.
    + apply String.eqb_eq in E. injection H as ->. subst k0. left; reflexivity.
    + right. apply IH. exact H.
Qed.

Lemma aligned_column (data : DataFrame) (name : string) (s : Series) :
  aligned data -> getitem data name = Ok s ->
  List.length s = List.length (index data).
Proof.
  unfold aligned, getitem. intros Hal Hget.
  apply dict_getitem_find, dict_find_In in Hget.
  rewrite Forall_forall in Hal. apply (Hal _ Hget).
Qed.

(** C3.  For every intraday frame with a non-empty Close column and every
    period of the engine, [calculate_emas] returns a frame whose column
    EMA<period> has one value per close (one per bar of an aligned frame),
    starts at the first close, and
    obeys  EMA_(i+1) = EMA_i + alpha * (close_(i+1) - EMA_i)  with
    alpha = 2 / (period + 1); no length gate depends on the period. *)
Theorem ema_column_recurrence
    (data : DataFrame) (closes : Series) (period : Z) :
  getitem data "Close" = Ok closes ->
  closes <> [] ->
  In period ema_periods ->
  exists data' ema,
    calculate_emas data = Ok data' /\
    index data' = index data /\
    getitem data' (ema_name period) = Ok ema /\
    List.length ema = List.length closes /\
    (aligned data -> List.length ema = List.length (index data')) /\
    nth 0 ema 0 = nth 0 closes 0 /\
    (forall i, (S i < List.length closes)%nat ->
       nth (S i) ema 0 ==
       nth i ema 0
       + 2 / (inject_Z period + 1) * (nth (S i) closes 0 - nth i ema 0)).
Proof.
  intros Hclose _ Hin.
  exists (with_emas closes ema_periods data), (ewm_mean period closes).
  split; [ apply calculate_emas_loop_ok; exact Hclose | ].
  split; [ apply with_emas_index | ].
  split; [ apply with_emas_column; exact Hin | ].
  split; [ apply ewm_mean_length | ].
  split.
  { intro Hal. rewrite ewm_mean_length, with_emas_index.
    apply (aligned_column data "Close" closes Hal Hclose). }
  apply ewm_mean_recurrence.
Qed.

Lemma ema_column_recurrence_witness :
  exists data' ema,
    calculate_emas three_bar_intraday = Ok data' /\
    index data' = index three_bar_intraday /\
    getitem data' (ema_name 50) = Ok ema /\
    List.length ema = List.length [10; 20; 15] /\
    (aligned three_bar_intraday ->
     List.length ema = List.length (index data')) /\
    nth 0 ema 0 = nth 0 [10; 20; 15] 0 /\
    (forall i, (S i < List.length [10; 20; 15])%nat ->
       nth (S i) ema 0 ==
       nth i ema 0
       + 2 / (inject_Z 50 + 1) * (nth (S i) [10; 20; 15] 0 - nth i ema 0)).
Proof.
  apply (ema_column_recurrence three_bar_intraday [10; 20; 15] 50).
  - reflexivity.
  - discriminate.
  - simpl. tauto.
Defined.

(** C6.  The EMA computation has no lookahead: for every span, series and
    [k], the scan of the first [k] values is the first [k] values of the
    scan; and running the engine on a frame cut to its first [k] bars gives
    the engine's frame cut to its first [k] bars, column by column. *)
Theorem ema_causal :
  (forall (span : Z) (vals : Series) (k : nat),
      ewm_mean span (firstn k vals) = firstn k (ewm_mean span vals))
  /\
  (forall (data : DataFrame) (k : nat),
      calculate_emas (head k data) = result_map (head k) (calculate_emas data))
  /\
  (forall (data : DataFrame) (k : nat) (name : string),
      (d <- calculate_emas (head k data) ;; getitem d name) =
      (d <- calculate_emas data ;; s <- getitem d name ;; Ok (firstn k s))).
Proof.
  split; [ | split ].
  - intros. apply ewm_mean_firstn.
  - intros. apply calculate_emas_loop_head.
  - intros data k name. unfold calculate_emas.
    rewrite calculate_emas_loop_head. unfold result_map.
    destruct (calculate_emas_loop ema_periods data) as [d | e];
      cbn [Py.bind].
    + apply getitem_head.
    + reflexivity.
Qed.

(** On a frame with no bars the engine returns normally. *)
Lemma calculate_emas_zero_bars_returns :
  index zero_bar_intraday = [] /\
  getitem zero_bar_intraday "Close" = Ok [] /\
  (exists data', calculate_emas zero_bar_intraday = Ok data') /\
  (forall e, calculate_emas zero_bar_intraday <> Raise e).
Proof.
  repeat split.
  - eexists. reflexivity.
  - intros e H. discriminate H.
Qed.

(** C7 (amended).  On a frame with zero bars (an empty Close column) the
    engine raises nothing: it returns the frame, still without rows, with
    six empty EMA columns. *)
Theorem calculate_emas_zero_bars (data : DataFrame) :
  index data = [] ->
  getitem data "Close" = Ok [] ->
  exists data',
    calculate_emas data = Ok data' /\
    index data' = [] /\
    (forall period, In period ema_periods ->
       getitem data' (ema_name period) = Ok []).
Proof.
  intros Hidx Hclose.
  exists (with_emas [] ema_periods data).
  split; [ apply calculate_emas_loop_ok; exact Hclose | ].
  split; [ rewrite with_emas_index; exact Hidx | ].
  intros period Hin.
  rewrite (with_emas_column [] data period Hin). reflexivity.
Qed.

Lemma calculate_emas_zero_bars_witness :
  exists data',
    calculate_emas zero_bar_intraday = Ok data' /\
    index data' = [] /\
    (forall period, In period ema_periods ->
       getitem data' (ema_name period) = Ok []).
Proof.
  apply (calculate_emas_zero_bars zero_bar_intraday); reflexivity.
Defined.

(* ================================================================== *)
(** ** The signal *)

Lemma round_half_even_nearest (x : Q) :
  Qabs (inject_Z (round_half_even x) - x) <= 1 # 2.
Proof.
  unfold round_half_even.
  pose proof (Qfloor_le x) as Hlo.
  pose proof (Qlt_floor x) as Hhi.
  rewrite inject_Z_plus in Hhi.
  change (inject_Z 1) with 1 in Hhi.
  apply Qabs_Qle_condition.
  destruct (Qcompare_spec (x - inject_Z (Qfloor x)) (1 # 2)) as [He | Hl | Hg].
  - destruct (Z.even (Qfloor x)).
    + split; lra.
    + rewrite inject_Z_plus. change (inject_Z 1) with 1. split; lra.
  - split; lra.
  - rewrite inject_Z_plus. change (inject_Z 1) with 1. split; lra.
Qed.

Lemma hundredths_nearest (x : Q) :
  Qabs (inject_Z (hundredths x) / 100 - Qabs x) <= 1 # 200.
Proof.
  unfold hundredths.
  pose proof (round_half_even_nearest (Qabs x * 100)) as H.
  apply Qabs_Qle_condition in H. apply Qabs_Qle_condition.
  set (n := inject_Z (round_half_even (Qabs x * 100))) in *.
  assert (Hn : 100 * (n / 100) == n) by field.
  split; lra.
Qed.

Lemma ripster_rules_value (latest : Row) (price e5 e12 e34 e50 : Q) :
  dict_getitem latest "Close" = Ok price ->
  dict_getitem latest "EMA5" = Ok e5 ->
  dict_getitem latest "EMA12" = Ok e12 ->
  dict_getitem latest "EMA34" = Ok e34 ->
  dict_getitem latest "EMA50" = Ok e50 ->
  ripster_rules latest = Ok (verdict_of price e5 e12 e34 e50).
Proof.
  intros Hc H5 H12 H34 H50.
  unfold ripster_rules, cloud_stop, and_, verdict_of.
  rewrite Hc, H5, H12, H34, H50. cbn [Py.bind].
  destruct (Py.gt price e34), (Py.gt price e50), (Py.gt e5 e12),
    (Py.lt price e34), (Py.lt price e50), (Py.lt e5 e12); reflexivity.
Qed.

Lemma get_ripster_signal_value
    (data : DataFrame) (latest : Row) (price e5 e12 e34 e50 : Q) :
  iloc data (-1) = Ok latest ->
  dict_getitem latest "Close" = Ok price ->
  dict_getitem latest "EMA5" = Ok e5 ->
  dict_getitem latest "EMA12" = Ok e12 ->
  dict_getitem latest "EMA34" = Ok e34 ->
  dict_getitem latest "EMA50" = Ok e50 ->
  get_ripster_signal data = Ok (verdict_of price e5 e12 e34 e50).
Proof.
  intros Hl Hc H5 H12 H34 H50. unfold get_ripster_signal.
  rewrite Hl. cbn [Py.bind]. apply ripster_rules_value; assumption.
Qed.

Lemma signals_distinct : LONG <> SHORT /\ LONG <> NEUTRAL /\ SHORT <> NEUTRAL.
Proof. repeat split; discriminate. Qed.

Ltac case_rules price e5 e12 e34 e50 :=
  unfold verdict_of, long_rule, short_rule;
  destruct (gt_reflect price e34), (gt_reflect price e50),
    (gt_reflect e5 e12), (lt_reflect price e34), (lt_reflect price e50),
    (lt_reflect e5 e12);
  cbn [andb signal reason stop_loss current_price].

(** At a bar whose close equals every average the verdict is NEUTRAL, and
    its texts are not the shortened ones. *)
Lemma neutral_texts_are_the_source_literals :
  exists v,
    get_ripster_signal flat_bar_intraday = Ok v /\
    signal v = NEUTRAL /\
    reason v <> "price in a consolidation or conflicting zone" /\
    stop_loss v <> "no trade recommended".
Proof.
  eexists. split; [ reflexivity | ].
  split; [ reflexivity | ].
  split; discriminate.
Qed.

(** C1 (amended).  For every last bar with fields close, EMA5, EMA12, EMA34,
    EMA50 the classifier returns LONG exactly when close > EMA34 and
    close > EMA50 and EMA5 > EMA12; SHORT exactly when close < EMA34 and
    close < EMA50 and EMA5 < EMA12 and the LONG rule did not match; and
    NEUTRAL otherwise, with the fixed reason
    "Price is in a consolidation or conflicting signal zone." and the fixed
    stop text "No trade recommended.".  The comparisons are strict: an
    equality in any of them gives NEUTRAL. *)
Theorem ripster_signal_classification
    (data : DataFrame) (latest : Row) (price e5 e12 e34 e50 : Q) :
  iloc data (-1) = Ok latest ->
  dict_getitem latest "Close" = Ok price ->
  dict_getitem latest "EMA5" = Ok e5 ->
  dict_getitem latest "EMA12" = Ok e12 ->
  dict_getitem latest "EMA34" = Ok e34 ->
  dict_getitem latest "EMA50" = Ok e50 ->
  exists v,
    get_ripster_signal data = Ok v /\
    current_price v = price /\
    (signal v = LONG <-> long_rule price e5 e12 e34 e50) /\
    (signal v = SHORT <->
       short_rule price e5 e12 e34 e50 /\ ~ long_rule price e5 e12 e34 e50) /\
    (signal v = NEUTRAL <->
       ~ long_rule price e5 e12 e34 e50 /\ ~ short_rule price e5 e12 e34 e50) /\
    (signal v = NEUTRAL ->
       reason v = "Price is in a consolidation or conflicting signal zone." /\
       stop_loss v = "No trade recommended.") /\
    (price == e34 \/ price == e50 \/ e5 == e12 -> signal v = NEUTRAL).
Proof.
  intros Hl Hc H5 H12 H34 H50.
  exists (verdict_of price e5 e12 e34 e50).
  split; [ apply (get_ripster_signal_value _ _ _ _ _ _ _ Hl Hc H5 H12 H34 H50) | ].
  destruct signals_distinct as (HLS & HLN & HSN).
  split.
  { unfold verdict_of.
    destruct (_ && _ && _)%bool; [ reflexivity | ].
    destruct (_ && _ && _)%bool; reflexivity. }
  case_rules price e5 e12 e34 e50;
    repeat split; intros;
    repeat match goal with
           | H : _ /\ _ |- _ => destruct H
           | H : _ \/ _ |- _ => destruct H
           end;
    try reflexivity; try congruence; try tauto; try (exfalso; lra).
Qed.

Lemma ripster_signal_classification_witness :
  exists v,
    get_ripster_signal long_bar_intraday = Ok v /\
    current_price v = 120 /\
    (signal v = LONG <-> long_rule 120 50 40 110 108) /\
    (signal v = SHORT <->
       short_rule 120 50 40 110 108 /\ ~ long_rule 120 50 40 110 108) /\
    (signal v = NEUTRAL <->
       ~ long_rule 120 50 40 110 108 /\ ~ short_rule 120 50 40 110 108) /\
    (signal v = NEUTRAL ->
       reason v = "Price is in a consolidation or conflicting signal zone." /\
       stop_loss v = "No trade recommended.") /\
    (120 == 110 \/ 120 == 108 \/ 50 == 40 -> signal v = NEUTRAL).
Proof.
  apply (ripster_signal_classification long_bar_intraday
           [ ("Open", 119); ("High", 121); ("Low", 118); ("Close", 120);
             ("Volume", 1000);
             ("EMA5", 50); ("EMA8", 48); ("EMA9", 47); ("EMA12", 40);
             ("EMA34", 110); ("EMA50", 108) ]);
    reflexivity.
Defined.

(* ================================================================== *)
(** ** Printing with two decimals *)

Lemma round_half_even_tie (x : Q) :
  Qabs (inject_Z (round_half_even x) - x) == 1 # 2 ->
  Z.even (round_half_even x) = true.
Proof.
  unfold round_half_even.
  pose proof (Qfloor_le x) as Hlo.
  pose proof (Qlt_floor x) as Hhi.
  rewrite inject_Z_plus in Hhi. change (inject_Z 1) with 1 in Hhi.
  destruct (Qcompare_spec (x - inject_Z (Qfloor x)) (1 # 2)) as [He | Hl | Hg].
  - intros _. destruct (Z.even (Qfloor x)) eqn:E; [ exact E | ].
    rewrite Z.even_add, E. reflexivity.
  - intro H. exfalso.
    rewrite (Qabs_neg (inject_Z (Qfloor x) - x)) in H by lra. lra.
  - intro H. exfalso. rewrite inject_Z_plus in H.
    change (inject_Z 1) with 1 in H.
    rewrite (Qabs_pos (inject_Z (Qfloor x) + 1 - x)) in H by lra. lra.
Qed.

Lemma hundredths_nonneg (x : Q) : (0 <= hundredths x)%Z.
Proof.
  unfold hundredths. rewrite <- (round_half_even_inject_Z 0).
  apply round_half_even_mono. change (inject_Z 0) with 0.
  apply Qmult_le_0_compat; [ apply Qabs_nonneg | lra ].
Qed.

Lemma hundredths_tie (x : Q) :
  Qabs (inject_Z (hundredths x) / 100 - Qabs x) == 1 # 200 ->
  Z.even (hundredths x) = true.
Proof.
  intro H. unfold hundredths in *. apply round_half_even_tie.
  set (n := inject_Z (round_half_even (Qabs x * 100))) in *.
  assert (E : n - Qabs x * 100 == 100 * (n / 100 - Qabs x)) by field.
  rewrite E, Qabs_Qmult, H. reflexivity.
Qed.

Lemma str_Z_nonneg (z : Z) :
  (0 <= z)%Z -> str_Z z = NilZero.string_of_uint (N.to_uint (Z.to_N z)).
Proof. destruct z; [ reflexivity | reflexivity | lia ]. Qed.

Lemma split_point_digits (d : Decimal.uint) (f : string) :
  split_point (NilEmpty.string_of_uint d ++ String "." f) =
  Some (NilEmpty.string_of_uint d, f).
Proof.
  induction d; cbn [NilEmpty.string_of_uint append split_point Ascii.eqb];
    try reflexivity; rewrite IHd; reflexivity.
Qed.

Lemma split_point_numeral (d : Decimal.uint) (f : string) :
  split_point (NilZero.string_of_uint d ++ String "." f) =
  Some (NilZero.string_of_uint d, f).
Proof.
  destruct d; try apply split_point_digits; reflexivity.
Qed.

Lemma numeral_head (d : Decimal.uint) :
  exists c r, NilZero.string_of_uint d = String c r /\ Ascii.eqb c "-" = false.
Proof. destruct d; do 2 eexists; split; reflexivity. Qed.

Lemma uint_beq_refl (u : Decimal.uint) : Decimal.uint_beq u u = true.
Proof. induction u; cbn; try reflexivity; exact IHu. Qed.

Lemma read_whole_numeral (m : N) :
  read_whole (NilZero.string_of_uint (N.to_uint m)) = Some m.
Proof.
  pose proof (DecimalN.Unsigned.of_to m) as Hm.
  pose proof (DecimalN.Unsigned.to_of (N.to_uint m)) as Hn.
  rewrite Hm in Hn.
  remember (N.to_uint m) as u eqn:Eu. clear Eu.
  unfold read_whole.
  destruct u; [ discriminate Hn | .. ];
    rewrite NilZero.usu by discriminate;
    rewrite <- Hn, uint_beq_refl, Hm; reflexivity.
Qed.

Lemma read_cents_two_digits (r : Z) :
  (0 <= r < 100)%Z -> read_cents (two_digits r) = Some (Z.to_N r).
Proof.
  intro H.
  assert (E : exists k, (k < 100)%nat /\ r = Z.of_nat k)
    by (exists (Z.to_nat r); lia).
  destruct E as (k & Hk & ->). clear H.
  do 100 (destruct k as [| k]; [ reflexivity | ]). lia.
Qed.

Lemma read_unsigned_format (n : Z) :
  (0 <= n)%Z ->
  read_unsigned (str_Z (n / 100) ++ "." ++ two_digits (n mod 100)) =
  Some (Z.to_N n).
Proof.
  intro Hn.
  assert (Hq : (0 <= n / 100)%Z) by (apply Z.div_pos; lia).
  assert (Hr : (0 <= n mod 100 < 100)%Z) by (apply Z.mod_pos_bound; lia).
  rewrite (str_Z_nonneg _ Hq). unfold read_unsigned.
  change ("." ++ two_digits (n mod 100))
    with (String "." (two_digits (n mod 100))).
  rewrite split_point_numeral, read_whole_numeral,
    (read_cents_two_digits _ Hr).
  f_equal. rewrite (Z.div_mod n 100) at 3 by lia. lia.
Qed.

Lemma read_format_2f (x : Q) :
  read_2f (format_2f x) = Some (Py.lt x 0, Z.to_N (hundredths x)).
Proof.
  pose proof (hundredths_nonneg x) as Hn.
  pose proof (read_unsigned_format _ Hn) as Hbody.
  unfold format_2f. cbv zeta.
  destruct (Py.lt x 0).
  - change ("-" ++ str_Z (hundredths x / 100) ++ "."
              ++ two_digits (hundredths x mod 100))
      with (String "-" (str_Z (hundredths x / 100) ++ "."
                          ++ two_digits (hundredths x mod 100))).
    unfold read_2f. change (Ascii.eqb "-" "-") with true. cbv iota.
    rewrite Hbody. reflexivity.
  - change ("" ++ str_Z (hundredths x / 100) ++ "."
              ++ two_digits (hundredths x mod 100))
      with (str_Z (hundredths x / 100) ++ "."
              ++ two_digits (hundredths x mod 100)).
    assert (Hq : (0 <= hundredths x / 100)%Z) by (apply Z.div_pos; lia).
    rewrite (str_Z_nonneg _ Hq) in *.
    destruct (numeral_head (N.to_uint (Z.to_N (hundredths x / 100))))
      as (c & r & Hw & Hc).
    rewrite Hw in *. cbn [append] in *. cbn [read_2f]. rewrite Hc.
    rewrite Hbody. reflexivity.
Qed.

Lemma format_2f_two_decimals (x : Q) : two_decimals_of x (format_2f x).
Proof.
  exists (Z.to_N (hundredths x)).
  pose proof (hundredths_nonneg x) as Hn.
  rewrite Z2N.id by exact Hn.
  split; [ apply read_format_2f | ].
  split; [ apply hundredths_nearest | ].
  intro H. pose proof (hundredths_tie x H) as He.
  destruct (hundredths x) as [| p | p]; [ reflexivity | | lia ].
  destruct p; cbn in He |- *; congruence.
Qed.

(** C8.  For every last bar that yields LONG or SHORT, the stop text is
    "Primary stop is 34/50 cloud (<a>-<b>)." where <a> is the bar's EMA34
    and <b> its EMA50, in this order whatever their sizes, each printed with
    exactly two decimals: the text reads back as the sign of the value and
    the number of hundredths nearest to its magnitude (the even one of two
    equally near). *)
Theorem stop_text_band
    (data : DataFrame) (latest : Row) (price e5 e12 e34 e50 : Q) (v : verdict) :
  iloc data (-1) = Ok latest ->
  dict_getitem latest "Close" = Ok price ->
  dict_getitem latest "EMA5" = Ok e5 ->
  dict_getitem latest "EMA12" = Ok e12 ->
  dict_getitem latest "EMA34" = Ok e34 ->
  dict_getitem latest "EMA50" = Ok e50 ->
  get_ripster_signal data = Ok v ->
  signal v = LONG \/ signal v = SHORT ->
  exists a b,
    stop_loss v = "Primary stop is 34/50 cloud (" ++ a ++ "-" ++ b ++ ")." /\
    two_decimals_of e34 a /\
    two_decimals_of e50 b.
Proof.
  intros Hl Hc H5 H12 H34 H50 Hv Hs.
  rewrite (get_ripster_signal_value _ _ _ _ _ _ _ Hl Hc H5 H12 H34 H50) in Hv.
  injection Hv as <-.
  exists (format_2f e34), (format_2f e50).
  split; [ | split; apply format_2f_two_decimals ].
  destruct signals_distinct as (HLS & HLN & HSN).
  unfold verdict_of in *.
  destruct (_ && _ && _)%bool; [ reflexivity | ].
  destruct (_ && _ && _)%bool; [ reflexivity | ].
  cbn [signal] in Hs. destruct Hs as [Hs | Hs]; congruence.
Qed.

Lemma stop_text_band_witness :
  (110126 # 1000) > (108125 # 1000) /\
  exists v,
    get_ripster_signal fractional_bar_intraday = Ok v /\
    signal v = LONG /\
    stop_loss v = "Primary stop is 34/50 cloud (110.13-108.12)." /\
    exists a b,
      stop_loss v = "Primary stop is 34/50 cloud (" ++ a ++ "-" ++ b ++ ")." /\
      two_decimals_of (110126 # 1000) a /\
      two_decimals_of (108125 # 1000) b.
Proof.
  split; [ reflexivity | ].
  eexists. split; [ reflexivity | ]. split; [ reflexivity | ].
  split; [ reflexivity | ].
  apply (stop_text_band fractional_bar_intraday
           [ ("Open", 119); ("High", 121); ("Low", 118); ("Close", 120);
             ("Volume", 1000);
             ("EMA5", 50); ("EMA8", 48); ("EMA9", 47); ("EMA12", 40);
             ("EMA34", 110126 # 1000); ("EMA50", 108125 # 1000) ]
           120 50 40 (110126 # 1000) (108125 # 1000));
    try reflexivity.
  left; reflexivity.
Defined.

Lemma ripster_rules_independent_eq (latest : Row) :
  ripster_rules_independent latest = ripster_rules latest.
Proof.
  unfold ripster_rules_independent, ripster_rules, cloud_stop, and_.
  repeat first
    [ reflexivity
    | match goal with
      | |- context [dict_getitem latest ?k] =>
          destruct (dict_getitem latest k); cbn [Py.bind andb]
      | |- context [Py.gt ?a ?b] =>
          destruct (gt_reflect a b); cbn [Py.bind andb]
      | |- context [Py.lt ?a ?b] =>
          destruct (lt_reflect a b); cbn [Py.bind andb]
      end
    | exfalso; lra ].
Qed.

(** C10.  The LONG and the SHORT condition never hold together, so the
    order of the two tests is immaterial: testing SHORT in a separate [if]
    instead of the [elif] gives the same outcome on every frame. *)
Theorem rules_exclusive_precedence_idle :
  (forall price e5 e12 e34 e50 : Q,
      ~ (long_rule price e5 e12 e34 e50 /\ short_rule price e5 e12 e34 e50))
  /\
  (forall price e5 e12 e34 e50 : Q,
      ((Py.gt price e34 && Py.gt price e50 && Py.gt e5 e12)
       && (Py.lt price e34 && Py.lt price e50 && Py.lt e5 e12))%bool = false)
  /\
  (forall data : DataFrame,
      get_ripster_signal_independent data = get_ripster_signal data).
Proof.
  split; [ | split ].
  - unfold long_rule, short_rule. intros price e5 e12 e34 e50 [H1 H2]. lra.
  - intros price e5 e12 e34 e50.
    destruct (gt_reflect price e34), (lt_reflect price e34),
      (Py.gt price e50), (Py.gt e5 e12), (Py.lt price e50), (Py.lt e5 e12);
      cbn [andb]; try reflexivity; exfalso; lra.
  - intro data. unfold get_ripster_signal_independent, get_ripster_signal.
    destruct (iloc data (-1)) as [latest | e]; cbn [Py.bind].
    + apply ripster_rules_independent_eq.
    + reflexivity.
Qed.

(* ================================================================== *)
(** ** Fetching and the main loop *)

Section Batch.

Variable history : string -> string -> string -> DataFrame.

Lemma ui_bind_assoc {A B C} (m : ui A) (f : A -> ui B) (g : B -> ui C) :
  ui_bind (ui_bind m f) g = ui_bind m (fun a => ui_bind (f a) g).
Proof.
  destruct m as [out [a | e]]; cbn [ui_bind]; [ | reflexivity ].
  destruct (f a) as [out1 [b | e]]; cbn [ui_bind].
  - destruct (g b) as [out2 r]. rewrite app_assoc. reflexivity.
  - reflexivity.
Qed.

Lemma for_each_ticker_app (pre post : list string) :
  for_each_ticker history (pre ++ post)%list =
  (for_each_ticker history pre ;;; for_each_ticker history post).
Proof.
  induction pre as [| t pre IH]; cbn [app for_each_ticker].
  - unfold ui_ret. cbn [ui_bind].
    destruct (for_each_ticker history post). reflexivity.
  - rewrite IH, ui_bind_assoc. reflexivity.
Qed.

Lemma get_stock_data_empty (ticker : string) :
  empty (history ticker "2d" "1d") = true \/
  empty (history ticker "7d" "15m") = true ->
  get_stock_data history ticker = Ok (None, None).
Proof.
  intro H. unfold get_stock_data.
  destruct H as [-> | ->]; [ | rewrite orb_true_r ]; reflexivity.
Qed.

Lemma analyse_ticker_empty (ticker : string) :
  empty (history ticker "2d" "1d") = true \/
  empty (history ticker "7d" "15m") = true ->
  analyse_ticker history ticker = (skipped ticker, Ok tt).
Proof.
  intro H. unfold analyse_ticker.
  rewrite (get_stock_data_empty ticker H). reflexivity.
Qed.

Lemma run_analysis_result (tickers : list string) :
  snd (run_analysis_for_tickers history tickers) =
  snd (for_each_ticker history tickers).
Proof.
  unfold run_analysis_for_tickers, ui_show. cbn [ui_bind].
  destruct (for_each_ticker history tickers) as [out [[] | e]];
    reflexivity.
Qed.

Lemma get_stock_data_one_row (ticker : string) :
  List.length (index (history ticker "2d" "1d")) = 1%nat ->
  empty (history ticker "2d" "1d") = false ->
  empty (history ticker "7d" "15m") = false ->
  get_stock_data history ticker =
  Raise (IndexError "single positional indexer is out-of-bounds").
Proof.
  intros Hlen Hd Hi. unfold get_stock_data.
  rewrite Hd, Hi. cbn [orb]. unfold iloc. rewrite Hlen. reflexivity.
Qed.

End Batch.

(** C5.  For every ticker of a batch whose daily or intraday series comes
    back empty, fetching yields the no-data pair, the page shows only the
    header and the warning for that ticker (no pivots, EMAs or verdict),
    nothing is raised, and the loop goes on with the remaining tickers: at
    the head of a batch, and after any tickers before it that completed. *)
Theorem empty_series_skips_ticker
    (history : string -> string -> string -> DataFrame)
    (ticker : string) (pre rest : list string) :
  empty (history ticker "2d" "1d") = true \/
  empty (history ticker "7d" "15m") = true ->
  get_stock_data history ticker = Ok (None, None) /\
  analyse_ticker history ticker = (skipped ticker, Ok tt) /\
  for_each_ticker history (ticker :: rest) =
    (let (out, r) := for_each_ticker history rest in
     ((skipped ticker ++ out)%list, r)) /\
  for_each_ticker history (pre ++ ticker :: rest)%list =
    (for_each_ticker history pre ;;;
     (skipped ticker, Ok tt) ;;;
     for_each_ticker history rest) /\
  snd (run_analysis_for_tickers history (ticker :: rest)) =
    snd (run_analysis_for_tickers history rest).
Proof.
  intro H.
  pose proof (analyse_ticker_empty history ticker H) as Ha.
  assert (Hcons : for_each_ticker history (ticker :: rest) =
                  (let (out, r) := for_each_ticker history rest in
                   ((skipped ticker ++ out)%list, r))).
  { cbn [for_each_ticker]. rewrite Ha. reflexivity. }
  split; [ apply get_stock_data_empty; exact H | ].
  split; [ exact Ha | ].
  split; [ exact Hcons | ].
  split.
  - rewrite for_each_ticker_app. cbn [for_each_ticker]. rewrite Ha.
    reflexivity.
  - rewrite !run_analysis_result, Hcons.
    destruct (for_each_ticker history rest). reflexivity.
Qed.

Lemma empty_series_skips_ticker_witness :
  get_stock_data sample_history "GONE" = Ok (None, None) /\
  analyse_ticker sample_history "GONE" = (skipped "GONE", Ok tt) /\
  for_each_ticker sample_history ["GONE"; "AAPL"] =
    (let (out, r) := for_each_ticker sample_history ["AAPL"] in
     ((skipped "GONE" ++ out)%list, r)) /\
  for_each_ticker sample_history (["MSFT"] ++ ["GONE"; "AAPL"])%list =
    (for_each_ticker sample_history ["MSFT"] ;;;
     (skipped "GONE", Ok tt) ;;;
     for_each_ticker sample_history ["AAPL"]) /\
  snd (run_analysis_for_tickers sample_history ["GONE"; "AAPL"]) =
    snd (run_analysis_for_tickers sample_history ["AAPL"]).
Proof.
  apply (empty_series_skips_ticker sample_history "GONE" ["MSFT"] ["AAPL"]).
  right. reflexivity.
Defined.

(** C9.  There is a provider answer with a single daily row and a non-empty
    intraday series on which fetching raises the out-of-bounds IndexError
    instead of giving the no-data pair, and the analysis of that ticker
    ends with that error; this is so for every such answer, because only
    emptiness is tested before the second-to-last daily row is read. *)
Theorem one_row_daily_raises :
  (exists (history : string -> string -> string -> DataFrame) (ticker : string),
      List.length (index (history ticker "2d" "1d")) = 1%nat /\
      empty (history ticker "2d" "1d") = false /\
      empty (history ticker "7d" "15m") = false /\
      get_stock_data history ticker <> Ok (None, None) /\
      get_stock_data history ticker =
        Raise (IndexError "single positional indexer is out-of-bounds") /\
      snd (run_analysis_for_tickers history [ticker]) =
        Raise (IndexError "single positional indexer is out-of-bounds"))
  /\
  (forall (history : string -> string -> string -> DataFrame)
          (ticker : string) (rest : list string),
      List.length (index (history ticker "2d" "1d")) = 1%nat ->
      empty (history ticker "2d" "1d") = false ->
      empty (history ticker "7d" "15m") = false ->
      get_stock_data history ticker =
        Raise (IndexError "single positional indexer is out-of-bounds") /\
      run_analysis_for_tickers history (ticker :: rest) =
        ([ StatusInfo ("Fetching data for "
                         ++ str_Z (Z.of_nat (List.length (ticker :: rest)))
                         ++ " stock(s)... Please wait.");
           Divider; Header ("Analysis for: " ++ ticker) ],
         Raise (IndexError "single positional indexer is out-of-bounds"))).
Proof.
  split.
  - exists sample_history, "NEWCO".
    repeat split; try reflexivity. intro H; discriminate H.
  - intros history ticker rest Hlen Hd Hi.
    pose proof (get_stock_data_one_row history ticker Hlen Hd Hi) as Hg.
    split; [ exact Hg | ].
    unfold run_analysis_for_tickers. cbn [for_each_ticker].
    unfold analyse_ticker. rewrite Hg. reflexivity.
Qed.

Lemma one_row_daily_raises_witness :
  get_stock_data sample_history "NEWCO" =
    Raise (IndexError "single positional indexer is out-of-bounds") /\
  run_analysis_for_tickers sample_history ["NEWCO"; "AAPL"] =
    ([ StatusInfo "Fetching data for 2 stock(s)... Please wait.";
       Divider; Header "Analysis for: NEWCO" ],
     Raise (IndexError "single positional indexer is out-of-bounds")).
Proof.
  apply (proj2 one_row_daily_raises sample_history "NEWCO" ["AAPL"]);
    reflexivity.
Defined.

(* ================================================================== *)
(** ** The watchlist file *)

Lemma is_space_upper_char (c : ascii) : is_space (upper_char c) = is_space c.
Proof. destruct c as [[] [] [] [] [] [] [] []]; reflexivity. Qed.

Lemma upper_char_idem (c : ascii) : upper_char (upper_char c) = upper_char c.
Proof. destruct c as [[] [] [] [] [] [] [] []]; reflexivity. Qed.

Lemma upper_idem (s : string) : upper (upper s) = upper s.
Proof.
  induction s as [| c s IH]; cbn [upper].
  - reflexivity.
  - rewrite upper_char_idem, IH. reflexivity.
Qed.

Lemma lstrip_upper (s : string) : lstrip (upper s) = upper (lstrip s).
Proof.
  induction s as [| c s IH]; cbn [upper lstrip].
  - reflexivity.
  - rewrite is_space_upper_char. destruct (is_space c); [ exact IH | reflexivity ].
Qed.

Lemma rstrip_upper (s : string) : rstrip (upper s) = upper (rstrip s).
Proof.
  induction s as [| c s IH]; cbn [upper rstrip].
  - reflexivity.
  - rewrite IH, is_space_upper_char.
    destruct (rstrip s); cbn [upper]; [ destruct (is_space c) | ]; reflexivity.
Qed.

Lemma truthy_upper (s : string) : truthy (upper s) = truthy s.
Proof. destruct s; reflexivity. Qed.

Lemma lstrip_idem (s : string) : lstrip (lstrip s) = lstrip s.
Proof.
  induction s as [| c s IH]; cbn [lstrip].
  - reflexivity.
  - destruct (is_space c) eqn:E; [ exact IH | ].
    cbn [lstrip]. rewrite E. reflexivity.
Qed.

Lemma rstrip_idem (s : string) : rstrip (rstrip s) = rstrip s.
Proof.
  induction s as [| c s IH]; cbn [rstrip].
  - reflexivity.
  - destruct (rstrip s) as [| c' r] eqn:E.
    + destruct (is_space c) eqn:Ec; cbn [rstrip]; [ | rewrite Ec ]; reflexivity.
    + assert (IH' : rstrip (String c' r) = String c' r)
        by (first [ exact IH | rewrite <- E; exact IH ]).
      remember (String c' r) as u eqn:Eu.
      cbn [rstrip]. rewrite IH'. rewrite Eu. reflexivity.
Qed.

(** Stripping on the right leaves the left end alone. *)
Lemma lstrip_rstrip_lstrip (s : string) :
  lstrip (rstrip (lstrip s)) = rstrip (lstrip s).
Proof.
  induction s as [| c s IH]; cbn [lstrip].
  - reflexivity.
  - destruct (is_space c) eqn:E; [ exact IH | ].
    cbn [rstrip]. destruct (rstrip s); [ rewrite E | ];
      cbn [lstrip]; rewrite E; reflexivity.
Qed.

Lemma strip_idem (s : string) : strip (strip s) = strip s.
Proof.
  unfold strip. rewrite lstrip_rstrip_lstrip, rstrip_idem. reflexivity.
Qed.

Lemma strip_upper (s : string) : strip (upper s) = upper (strip s).
Proof. unfold strip. rewrite lstrip_upper, rstrip_upper. reflexivity. Qed.

Lemma rstrip_newline (s : string) : rstrip (s ++ newline) = rstrip s.
Proof.
  induction s as [| c s IH].
  - reflexivity.
  - cbn [append rstrip]. rewrite IH. reflexivity.
Qed.

Lemma lstrip_append (s t : string) :
  truthy s = true -> lstrip s = s -> lstrip (s ++ t) = s ++ t.
Proof.
  destruct s as [| c s]; [ discriminate | ].
  intros _ H. cbn [append lstrip] in *.
  destruct (is_space c); [ | reflexivity ].
  exfalso.
  assert (Hlen : forall u, (String.length (lstrip u) <= String.length u)%nat).
  { induction u as [| d u IHu]; cbn [lstrip]; [ lia | ].
    destruct (is_space d); cbn [String.length]; lia. }
  pose proof (Hlen s) as Hs. rewrite H in Hs. cbn [String.length] in Hs. lia.
Qed.

Lemma normal_ticker_of_line (line : string) :
  truthy (strip line) = true -> normal_ticker (upper (strip line)).
Proof.
  intro H. unfold normal_ticker. repeat split.
  - intro E. rewrite <- truthy_upper, E in H. discriminate H.
  - unfold strip. rewrite lstrip_upper, lstrip_rstrip_lstrip. reflexivity.
  - unfold strip. rewrite rstrip_upper, rstrip_idem. reflexivity.
  - apply upper_idem.
Qed.

Lemma normal_ticker_line (t : string) :
  normal_ticker t ->
  truthy (strip (t ++ newline)) = true /\ upper (strip (t ++ newline)) = t.
Proof.
  intros (Hne & Hl & Hr & Hu).
  assert (Ht : truthy t = true) by (destruct t; [ congruence | reflexivity ]).
  assert (Hs : strip (t ++ newline) = t).
  { unfold strip. rewrite (lstrip_append t newline Ht Hl), rstrip_newline.
    exact Hr. }
  rewrite Hs. split; assumption.
Qed.

Lemma all_stocks_normal (lines : list string) :
  Forall normal_ticker (all_stocks lines).
Proof.
  unfold all_stocks, load_watchlist. cbn [tl].
  apply Forall_forall. intros t Ht.
  apply in_map_iff in Ht. destruct Ht as (line & <- & Hin).
  apply filter_In in Hin. apply normal_ticker_of_line, Hin.
Qed.

Lemma lstrip_split (s : string) :
  exists a, s = a ++ lstrip s /\ all_space a = true.
Proof.
  induction s as [| c s (a & Ha & Hs)]; cbn [lstrip].
  - exists "". split; reflexivity.
  - destruct (is_space c) eqn:E.
    + exists (String c a). cbn [append all_space]. rewrite E, Hs, <- Ha.
      split; reflexivity.
    + exists "". split; reflexivity.
Qed.

Lemma rstrip_split (s : string) :
  exists b, s = rstrip s ++ b /\ all_space b = true.
Proof.
  induction s as [| c s (b & Hb & Hs)]; cbn [rstrip].
  - exists "". split; reflexivity.
  - destruct (rstrip s) as [| d r] eqn:E.
    + destruct (is_space c) eqn:Ec.
      * exists (String c b). cbn [append all_space] in *.
        rewrite Ec, Hs, <- Hb. split; reflexivity.
      * exists b. cbn [append] in *. rewrite Hb at 1.
        split; [ reflexivity | exact Hs ].
    + exists b. cbn [append] in *. rewrite Hb at 1.
      split; [ reflexivity | exact Hs ].
Qed.

Lemma lstrip_first (s : string) : solid (first_char (lstrip s)) \/ lstrip s = "".
Proof.
  induction s as [| c s IH]; cbn [lstrip].
  - right; reflexivity.
  - destruct (is_space c) eqn:E; [ exact IH | left; exact E ].
Qed.

Lemma rstrip_last (s : string) : solid (last_char (rstrip s)) \/ rstrip s = "".
Proof.
  induction s as [| c s IH]; cbn [rstrip].
  - right; reflexivity.
  - destruct (rstrip s) as [| d r] eqn:E.
    + destruct (is_space c) eqn:Ec; [ right; reflexivity | left; exact Ec ].
    + left. destruct IH as [IH | IH]; [ exact IH | discriminate IH ].
Qed.

Lemma rstrip_first (s : string) :
  solid (first_char s) -> first_char (rstrip s) = first_char s.
Proof.
  destruct s as [| c s]; cbn [first_char solid rstrip]; intro H.
  - contradiction.
  - destruct (rstrip s); [ rewrite H | ]; reflexivity.
Qed.

Lemma append_empty (s : string) : s ++ "" = s.
Proof.
  induction s as [| c s IH]; cbn [append]; [ | rewrite IH ]; reflexivity.
Qed.

Lemma strip_blank (line : string) :
  truthy (strip line) = negb (all_space line).
Proof.
  unfold strip.
  destruct (lstrip_split line) as (a & Ha & Hs).
  destruct (lstrip_first line) as [Hf | He].
  - pose proof (rstrip_first _ Hf) as Hr.
    assert (Hns : all_space line = false).
    { rewrite Ha. clear Ha. induction a as [| c a IH]; cbn [append all_space].
      - destruct (lstrip line) as [| d r]; cbn [first_char solid] in Hf;
          [ contradiction | ].
        cbn [all_space]. rewrite Hf. reflexivity.
      - cbn [all_space] in Hs. apply andb_true_iff in Hs. destruct Hs as [Hc Hs].
        rewrite Hc, (IH Hs). reflexivity. }
    rewrite Hns.
    destruct (rstrip (lstrip line)); cbn [first_char] in Hr.
    + rewrite <- Hr in Hf. contradiction.
    + reflexivity.
  - rewrite He. cbn [rstrip truthy].
    rewrite Ha, He. clear Ha He.
    rewrite append_empty, Hs. reflexivity.
Qed.

Lemma ticker_of_strip (line : string) :
  truthy (strip line) = true -> ticker_of_line line (upper (strip line)).
Proof.
  intro Ht. unfold strip in *.
  destruct (lstrip_split line) as (a & Ha & Hsa).
  destruct (rstrip_split (lstrip line)) as (b & Hb & Hsb).
  exists a, (rstrip (lstrip line)), b.
  split; [ rewrite <- Hb; exact Ha | ].
  split; [ exact Hsa | ]. split; [ exact Hsb | ].
  assert (Hne : rstrip (lstrip line) <> "")
    by (intro E; rewrite E in Ht; discriminate Ht).
  split; [ | split; [ | reflexivity ] ].
  - destruct (lstrip_first line) as [Hf | He].
    + rewrite (rstrip_first _ Hf). exact Hf.
    + rewrite He in Hne. exfalso. apply Hne. reflexivity.
  - destruct (rstrip_last (lstrip line)) as [Hl | He];
      [ exact Hl | contradiction ].
Qed.

Lemma all_stocks_tickers (lines : list string) :
  Forall2 ticker_of_line
    (filter (fun line => negb (all_space line)) lines) (all_stocks lines).
Proof.
  unfold all_stocks, load_watchlist. cbn [tl].
  rewrite (filter_ext (fun line => negb (all_space line))
             (fun line => truthy (strip line)))
    by (intro line; symmetry; apply strip_blank).
  induction lines as [| line lines IH]; cbn [filter map].
  - constructor.
  - destruct (truthy (strip line)) eqn:E; cbn [map].
    + constructor; [ apply ticker_of_strip; exact E | exact IH ].
    + exact IH.
Qed.

(** X1.  The watchlist is the empty choice followed by one ticker for each
    line that is not blank, in the order of the file, duplicates kept: the
    line without the white space around it, in upper case.  So every ticker
    that "Analyze All Stocks" passes on is non-empty, has no white space at
    either end and no lower-case letter. *)
Theorem watchlist_entries_normal (lines : list string) :
  load_watchlist lines = ("" :: all_stocks lines)%list /\
  Forall2 ticker_of_line
    (filter (fun line => negb (all_space line)) lines) (all_stocks lines) /\
  Forall normal_ticker (all_stocks lines) /\
  ~ In "" (all_stocks lines).
Proof.
  pose proof (all_stocks_normal lines) as HF.
  split; [ reflexivity | ].
  split; [ apply all_stocks_tickers | ].
  split; [ exact HF | ].
  intro Hin. rewrite Forall_forall in HF.
  destruct (HF _ Hin) as (Hne & _). apply Hne. reflexivity.
Qed.

(** X2.  Writing the tickers back one per line and loading that file gives
    the same watchlist again. *)
Theorem watchlist_reload (lines : list string) :
  load_watchlist (map (fun t => t ++ newline) (all_stocks lines)) =
  load_watchlist lines.
Proof.
  pose proof (all_stocks_normal lines) as HF.
  change (load_watchlist lines) with ("" :: all_stocks lines)%list.
  unfold load_watchlist at 1. f_equal.
  induction HF as [| t ts Ht _ IH]; cbn [map filter].
  - reflexivity.
  - destruct (normal_ticker_line t Ht) as (Htr & Hup).
    rewrite Htr. cbn [map]. rewrite Hup, IH. reflexivity.
Qed.

(* ================================================================== *)
(** ** More on pivot points *)

(** X4.  In the arithmetic of doubles, an incoherent session with
    high <= low (prices up to 2^1021 in magnitude) still gives five levels,
    with the outer ones the other way round: R2 <= PP <= S2 and
    R1 <= S1. *)
Theorem pivot_order_inverted (prev_day : Row) (high low close : Q) :
  dict_getitem prev_day "High" = Ok high ->
  dict_getitem prev_day "Low" = Ok low ->
  dict_getitem prev_day "Close" = Ok close ->
  Qabs high <= price_bound -> Qabs low <= price_bound ->
  Qabs close <= price_bound ->
  high <= low ->
  exists pivots r2 r1 pp s1 s2,
    Rounded.calculate_pivot_points Float64.round prev_day = Ok pivots /\
    levels pivots r2 r1 pp s1 s2 /\
    r2 <= pp /\ pp <= s2 /\ r1 <= s1.
Proof.
  intros Hh Hl Hc _ _ _ Hle.
  destruct (float_pivot_points_levels _ _ _ _ Hh Hl Hc)
    as (pv & r2 & r1 & pp & s1 & s2 & Hpv & Hlv & Hpp & -> & -> & -> & ->).
  exists pv. do 5 eexists. split; [ exact Hpv | ]. split; [ exact Hlv | ].
  destruct (rounded_outer_levels_inverted Float64.round round_mono round_zero
              high low pp Hle Hpp) as (H1 & H2 & H3).
  repeat split; assumption.
Qed.

Lemma pivot_order_inverted_witness :
  exists pivots r2 r1 pp s1 s2,
    Rounded.calculate_pivot_points Float64.round session_high_below_low
      = Ok pivots /\
    levels pivots r2 r1 pp s1 s2 /\
    r2 <= pp /\ pp <= s2 /\ r1 <= s1.
Proof.
  apply (pivot_order_inverted session_high_below_low 95 105 100);
    try reflexivity; vm_compute; intro H; discriminate H.
Defined.

(** X5.  [calculate_pivot_points] returns exactly when the row has High, Low
    and Close; otherwise it raises KeyError for the first of High, Low,
    Close that is missing. *)
Theorem pivot_points_key_errors (prev_day : Row) :
  ((exists pivots, calculate_pivot_points prev_day = Ok pivots) <->
   (dict_find prev_day "High" <> None /\
    dict_find prev_day "Low" <> None /\
    dict_find prev_day "Close" <> None)) /\
  (dict_find prev_day "High" = None ->
   calculate_pivot_points prev_day = Raise (KeyError "High")) /\
  (dict_find prev_day "High" <> None -> dict_find prev_day "Low" = None ->
   calculate_pivot_points prev_day = Raise (KeyError "Low")) /\
  (dict_find prev_day "High" <> None -> dict_find prev_day "Low" <> None ->
   dict_find prev_day "Close" = None ->
   calculate_pivot_points prev_day = Raise (KeyError "Close")).
Proof.
  unfold calculate_pivot_points, dict_getitem.
  destruct (dict_find prev_day "High") as [h |];
    destruct (dict_find prev_day "Low") as [l |];
    destruct (dict_find prev_day "Close") as [c |];
    cbn [Py.bind];
    repeat split;
    try (intros; congruence);
    try (intros; eexists; reflexivity);
    try (intros [pv H]; discriminate H);
    try (intros (H1 & H2 & H3); congruence);
    try match goal with
        | H : exists _, Raise _ = Ok _ |- _ =>
            destruct H as [? H]; discriminate H
        end.
Qed.

Lemma pivot_points_key_errors_witness :
  calculate_pivot_points session_without_low = Raise (KeyError "Low").
Proof.
  apply (proj1 (proj2 (proj2 (pivot_points_key_errors session_without_low)))).
  - discriminate.
  - reflexivity.
Defined.

(* ================================================================== *)
(** ** More on the EMA engine *)

Lemma alpha_of_span_range (span : Z) :
  (1 <= span)%Z -> 0 < alpha_of_span span /\ alpha_of_span span <= 1.
Proof.
  intro H. rewrite alpha_of_span_eq.
  rewrite Zle_Qle in H. change (inject_Z 1) with 1 in H.
  split.
  - apply Qlt_shift_div_l; lra.
  - apply Qle_shift_div_r; lra.
Qed.

Lemma ema_periods_positive (period : Z) :
  In period ema_periods -> (2 <= period)%Z.
Proof.
  unfold ema_periods. cbn [In].
  intros [<- | [<- | [<- | [<- | [<- | [<- | []]]]]]]; lia.
Qed.

Lemma ewm_step_between (alpha w cur lo hi : Q) :
  0 <= alpha -> alpha <= 1 ->
  lo <= w -> w <= hi -> lo <= cur -> cur <= hi ->
  lo <= (1 - alpha) * w + alpha * cur /\ (1 - alpha) * w + alpha * cur <= hi.
Proof.
  intros Ha0 Ha1 Hw1 Hw2 Hc1 Hc2.
  assert (E1 : (1 - alpha) * w + alpha * cur - lo ==
               (1 - alpha) * (w - lo) + alpha * (cur - lo)) by ring.
  assert (E2 : hi - ((1 - alpha) * w + alpha * cur) ==
               (1 - alpha) * (hi - w) + alpha * (hi - cur)) by ring.
  assert (P1 : 0 <= (1 - alpha) * (w - lo)) by (apply Qmult_le_0_compat; lra).
  assert (P2 : 0 <= alpha * (cur - lo)) by (apply Qmult_le_0_compat; lra).
  assert (P3 : 0 <= (1 - alpha) * (hi - w)) by (apply Qmult_le_0_compat; lra).
  assert (P4 : 0 <= alpha * (hi - cur)) by (apply Qmult_le_0_compat; lra).
  split; lra.
Qed.

Lemma ewm_from_between (alpha lo hi : Q) (vals : Series) :
  0 <= alpha -> alpha <= 1 ->
  forall w,
    lo <= w -> w <= hi ->
    Forall (fun x => lo <= x /\ x <= hi) vals ->
    Forall (fun y => lo <= y /\ y <= hi) (ewm_from alpha w vals).
Proof.
  intros Ha0 Ha1.
  induction vals as [| cur rest IH]; intros w Hw1 Hw2 Hv; cbn [ewm_from].
  - constructor.
  - inversion Hv as [| ? ? [Hc1 Hc2] Hrest]; subst.
    destruct (ewm_step_between alpha w cur lo hi) as [H1 H2]; try assumption.
    constructor; [ split; assumption | ].
    apply IH; assumption.
Qed.

Lemma ewm_mean_between (span : Z) (lo hi : Q) (vals : Series) :
  (1 <= span)%Z ->
  Forall (fun x => lo <= x /\ x <= hi) vals ->
  Forall (fun y => lo <= y /\ y <= hi) (ewm_mean span vals).
Proof.
  intros Hs Hv. destruct (alpha_of_span_range span Hs) as [Ha0 Ha1].
  destruct vals as [| v0 rest]; cbn [ewm_mean]; [ constructor | ].
  inversion Hv as [| ? ? [Hc1 Hc2] Hrest]; subst.
  constructor; [ split; assumption | ].
  apply ewm_from_between; try assumption; lra.
Qed.

Lemma with_emas_other_column
    (closes : Series) (name : string) (periods : list Z) :
  (forall p, In p periods -> ema_name p <> name) ->
  forall data, getitem (with_emas closes periods data) name = getitem data name.
Proof.
  unfold with_emas.
  induction periods as [| p periods IH]; intros Hne data; cbn [fold_left].
  - reflexivity.
  - rewrite IH by (intros q Hq; apply Hne; right; exact Hq).
    rewrite getitem_setitem.
    destruct (String.eqb (ema_name p) name) eqn:E; [ | reflexivity ].
    apply String.eqb_eq in E. exfalso. apply (Hne p); [ left; reflexivity | exact E ].
Qed.

Lemma with_emas_close (closes : Series) (periods : list Z) (data : DataFrame) :
  getitem (with_emas closes periods data) "Close" = getitem data "Close".
Proof.
  apply with_emas_other_column. intros p _ E.
  pose proof (ema_name_not_close p) as H. rewrite E in H. discriminate H.
Qed.

Lemma Forall_dict_setitem {V} (P : string * V -> Prop)
    (d : dict V) (k : string) (v : V) :
  Forall P d -> (forall k', String.eqb k' k = true -> P (k', v)) ->
  Forall P (dict_setitem d k v).
Proof.
  intros Hd Hv. induction Hd as [| [k0 v0] d H0 Hd IH]; cbn [dict_setitem].
  - constructor; [ apply Hv, String.eqb_refl | constructor ].
  - destruct (String.eqb k0 k) eqn:E.
    + constructor; [ apply Hv; exact E | exact Hd ].
    + constructor; [ exact H0 | exact IH ].
Qed.

Lemma with_emas_aligned (closes : Series) (periods : list Z) :
  forall data,
    List.length closes = List.length (index data) ->
    aligned data -> aligned (with_emas closes periods data).
Proof.
  unfold with_emas.
  induction periods as [| p periods IH]; intros data Hlen Hal; cbn [fold_left].
  - exact Hal.
  - apply IH; [ exact Hlen | ].
    unfold aligned, setitem. cbn [index columns].
    apply Forall_dict_setitem; [ exact Hal | ].
    intros k' _. cbn [snd]. rewrite ewm_mean_length. exact Hlen.
Qed.

Lemma calculate_emas_inv (data data' : DataFrame) :
  calculate_emas data = Ok data' ->
  exists closes,
    getitem data "Close" = Ok closes /\
    data' = with_emas closes ema_periods data.
Proof.
  intro H. destruct (getitem data "Close") as [closes | e] eqn:E.
  - exists closes. split; [ reflexivity | ].
    unfold calculate_emas in H.
    rewrite (calculate_emas_loop_ok closes ema_periods data E) in H.
    injection H as <-. reflexivity.
  - exfalso. unfold calculate_emas, ema_periods in H.
    cbn [calculate_emas_loop] in H. unfold calculate_ema in H.
    rewrite E in H. discriminate H.
Qed.

(** X6.  When [calculate_emas] returns, the frame has the same rows, every
    column other than the six EMA columns is what it was (Close included),
    the six EMA columns hold the averages of Close, and an aligned frame
    stays aligned. *)
Theorem calculate_emas_frame (data data' : DataFrame) :
  calculate_emas data = Ok data' ->
  index data' = index data /\
  (forall name,
      (forall p, In p ema_periods -> ema_name p <> name) ->
      getitem data' name = getitem data name) /\
  (exists closes,
      getitem data "Close" = Ok closes /\
      getitem data' "Close" = Ok closes /\
      forall p, In p ema_periods ->
        getitem data' (ema_name p) = Ok (ewm_mean p closes)) /\
  (aligned data -> aligned data').
Proof.
  intro H. destruct (calculate_emas_inv data data' H) as (closes & Hc & ->).
  split; [ apply with_emas_index | ].
  split; [ intros name Hne; apply with_emas_other_column; exact Hne | ].
  split.
  - exists closes. split; [ exact Hc | ].
    split; [ rewrite with_emas_close; exact Hc | ].
    intros p Hp. apply with_emas_column; exact Hp.
  - intro Hal. apply with_emas_aligned; [ | exact Hal ].
    apply (aligned_column data "Close" closes Hal Hc).
Qed.

Lemma calculate_emas_frame_witness :
  index (with_emas [10; 20; 15] ema_periods three_bar_intraday) =
    index three_bar_intraday /\
  (forall name,
      (forall p, In p ema_periods -> ema_name p <> name) ->
      getitem (with_emas [10; 20; 15] ema_periods three_bar_intraday) name =
      getitem three_bar_intraday name) /\
  (exists closes,
      getitem three_bar_intraday "Close" = Ok closes /\
      getitem (with_emas [10; 20; 15] ema_periods three_bar_intraday) "Close" =
        Ok closes /\
      forall p, In p ema_periods ->
        getitem (with_emas [10; 20; 15] ema_periods three_bar_intraday)
          (ema_name p) = Ok (ewm_mean p closes)) /\
  (aligned three_bar_intraday ->
   aligned (with_emas [10; 20; 15] ema_periods three_bar_intraday)).
Proof.
  apply (calculate_emas_frame three_bar_intraday). reflexivity.
Defined.

(** X7.  [calculate_emas] raises KeyError "Close" when the frame has no
    Close column, and returns in every other case. *)
Theorem calculate_emas_key_error (data : DataFrame) :
  match dict_find (columns data) "Close" with
  | None => calculate_emas data = Raise (KeyError "Close")
  | Some closes => exists data', calculate_emas data = Ok data'
  end.
Proof.
  destruct (dict_find (columns data) "Close") as [closes |] eqn:E.
  - exists (with_emas closes ema_periods data).
    apply calculate_emas_loop_ok. apply dict_getitem_find. exact E.
  - unfold calculate_emas, ema_periods. cbn [calculate_emas_loop].
    unfold calculate_ema, getitem, dict_getitem. rewrite E. reflexivity.
Qed.

Lemma dict_setitem_same {V} (d : dict V) (k : string) (v : V) :
  dict_find d k = Some v -> dict_setitem d k v = d.
Proof.
  induction d as [| [k0 v0] d IH]; cbn [dict_find dict_setitem]; intro H.
  - discriminate H.
  - destruct (String.eqb k0 k).
    + injection H as ->. reflexivity.
    + rewrite IH by exact H. reflexivity.
Qed.

Lemma with_emas_fixed (closes : Series) (periods : list Z) (data : DataFrame) :
  (forall p, In p periods -> getitem data (ema_name p) = Ok (ewm_mean p closes)) ->
  with_emas closes periods data = data.
Proof.
  unfold with_emas.
  induction periods as [| p periods IH]; intro H; cbn [fold_left].
  - reflexivity.
  - assert (E : setitem data (ema_name p) (ewm_mean p closes) = data).
    { unfold setitem. destruct data as [idx cols]. cbn [index columns]. f_equal.
      apply dict_setitem_same. apply dict_getitem_find.
      apply (H p). left; reflexivity. }
    rewrite E. apply IH. intros q Hq. apply H. right; exact Hq.
Qed.

(** X8.  Running the engine on its own output changes nothing: the six
    columns are recomputed from the same Close column and replaced in
    place. *)
Theorem calculate_emas_idempotent (data data' : DataFrame) :
  calculate_emas data = Ok data' -> calculate_emas data' = Ok data'.
Proof.
  intro H. destruct (calculate_emas_inv data data' H) as (closes & Hc & ->).
  unfold calculate_emas.
  rewrite (calculate_emas_loop_ok closes).
  - f_equal. apply with_emas_fixed.
    intros p Hp. apply with_emas_column; exact Hp.
  - rewrite with_emas_close. exact Hc.
Qed.

Lemma calculate_emas_idempotent_witness :
  calculate_emas (with_emas [10; 20; 15] ema_periods three_bar_intraday) =
  Ok (with_emas [10; 20; 15] ema_periods three_bar_intraday).
Proof.
  apply (calculate_emas_idempotent three_bar_intraday). reflexivity.
Defined.

(** X10.  On a series whose closes all equal [c], every value of every EMA
    column equals [c]. *)
Theorem ema_constant_series
    (data : DataFrame) (closes : Series) (period : Z) (c : Q) :
  getitem data "Close" = Ok closes ->
  Forall (fun x => x == c) closes ->
  In period ema_periods ->
  exists data' ema,
    calculate_emas data = Ok data' /\
    getitem data' (ema_name period) = Ok ema /\
    List.length ema = List.length closes /\
    Forall (fun y => y == c) ema.
Proof.
  intros Hc Hb Hp.
  exists (with_emas closes ema_periods data), (ewm_mean period closes).
  split; [ apply calculate_emas_loop_ok; exact Hc | ].
  split; [ apply with_emas_column; exact Hp | ].
  split; [ apply ewm_mean_length | ].
  assert (Hb' : Forall (fun x => c <= x /\ x <= c) closes).
  { eapply Forall_impl; [ | exact Hb ]. cbn beta. intros x Hx. split; lra. }
  pose proof (ema_periods_positive period Hp) as Hpos.
  assert (H1 : (1 <= period)%Z) by lia.
  pose proof (ewm_mean_between period c c closes H1 Hb') as He.
  eapply Forall_impl; [ | exact He ]. cbn beta. intros y [Hy1 Hy2]. lra.
Qed.

Lemma ema_constant_series_witness :
  exists data' ema,
    calculate_emas flat_three_bar_intraday = Ok data' /\
    getitem data' (ema_name 34) = Ok ema /\
    List.length ema = List.length [100; 100; 100] /\
    Forall (fun y => y == 100) ema.
Proof.
  apply (ema_constant_series flat_three_bar_intraday [100; 100; 100] 34 100).
  - reflexivity.
  - repeat constructor.
  - cbn [ema_periods In]. tauto.
Defined.

(* ================================================================== *)
(** ** More on the signal *)

Lemma iloc_last (data : DataFrame) :
  index data <> [] -> iloc data (-1) = Ok (last_row data).
Proof.
  intro Hne. unfold iloc, last_row.
  assert (Hlen : (1 <= List.length (index data))%nat).
  { destruct (index data); [ congruence | cbn [List.length]; lia ]. }
  change (-1 <? 0)%Z with true. cbv iota.
  assert (H1 : (Z.of_nat (List.length (index data)) + -1 <? 0)%Z = false)
    by (apply Z.ltb_ge; lia).
  assert (H2 : (Z.of_nat (List.length (index data))
                <=? Z.of_nat (List.length (index data)) + -1)%Z = false)
    by (apply Z.leb_gt; lia).
  rewrite H1, H2. cbn [orb].
  replace (Z.to_nat (Z.of_nat (List.length (index data)) + -1))
    with (List.length (index data) - 1)%nat by lia.
  reflexivity.
Qed.

Lemma iloc_no_rows (data : DataFrame) :
  index data = [] ->
  iloc data (-1) = Raise (IndexError "single positional indexer is out-of-bounds").
Proof. intro E. unfold iloc. rewrite E. reflexivity. Qed.

Lemma last_row_getitem (data : DataFrame) (name : string) :
  dict_getitem (last_row data) name =
  result_map (fun col => nth (List.length (index data) - 1) col 0)
             (getitem data name).
Proof.
  unfold last_row, getitem, dict_getitem, result_map.
  induction (columns data) as [| [k0 c0] cols IH]; cbn [map dict_find fst snd].
  - reflexivity.
  - destruct (String.eqb k0 name); [ reflexivity | exact IH ].
Qed.

Lemma ripster_rules_raises_key_error (latest : Row) (e : exn) :
  ripster_rules latest = Raise e -> exists key, e = KeyError key.
Proof.
  unfold ripster_rules, cloud_stop, and_, dict_getitem.
  repeat first
    [ match goal with
      | |- context [dict_find latest ?k] =>
          destruct (dict_find latest k); cbn [Py.bind andb]
      | |- context [Py.gt ?a ?b] => destruct (Py.gt a b); cbn [Py.bind andb]
      | |- context [Py.lt ?a ?b] => destruct (Py.lt a b); cbn [Py.bind andb]
      end ];
    intro H; first [ discriminate H | injection H as <-; eexists; reflexivity ].
Qed.

(** X11.  [get_ripster_signal] raises IndexError exactly on a frame without
    rows; on a frame with rows the only error it can raise is a KeyError
    for a missing field. *)
Theorem signal_index_error (data : DataFrame) :
  (index data = [] <-> exists msg, get_ripster_signal data = Raise (IndexError msg))
  /\
  (index data <> [] ->
   forall e, get_ripster_signal data = Raise e -> exists key, e = KeyError key).
Proof.
  assert (Hrows : index data <> [] ->
                  forall e, get_ripster_signal data = Raise e ->
                            exists key, e = KeyError key).
  { intros Hne e H. unfold get_ripster_signal in H.
    rewrite (iloc_last data Hne) in H. cbn [Py.bind] in H.
    apply (ripster_rules_raises_key_error _ _ H). }
  split; [ split | exact Hrows ].
  - intro E. eexists. unfold get_ripster_signal.
    rewrite (iloc_no_rows data E). reflexivity.
  - intros [msg H]. destruct (index data) as [| i idx] eqn:E; [ reflexivity | ].
    exfalso. assert (Hne : i :: idx <> []) by discriminate.
    destruct (Hrows Hne _ H) as [key Hk]. discriminate Hk.
Qed.

Lemma signal_index_error_witness :
  exists msg, get_ripster_signal zero_bar_intraday = Raise (IndexError msg).
Proof.
  apply (proj1 (proj1 (signal_index_error zero_bar_intraday))). reflexivity.
Defined.

(** X12.  The second comparison of a bias is read only when the first one
    holds: on a last row that has Close, EMA5, EMA12 and EMA34 but no EMA50,
    the rules raise KeyError "EMA50" when the close differs from EMA34, and
    return NEUTRAL when the close equals EMA34. *)
Theorem missing_ema50_short_circuit (latest : Row) (price e5 e12 e34 : Q) :
  dict_getitem latest "Close" = Ok price ->
  dict_getitem latest "EMA5" = Ok e5 ->
  dict_getitem latest "EMA12" = Ok e12 ->
  dict_getitem latest "EMA34" = Ok e34 ->
  dict_getitem latest "EMA50" = Raise (KeyError "EMA50") ->
  (~ price == e34 -> ripster_rules latest = Raise (KeyError "EMA50")) /\
  (price == e34 ->
   ripster_rules latest =
   Ok (mkVerdict NEUTRAL
         "Price is in a consolidation or conflicting signal zone."
         "No trade recommended." price)).
Proof.
  intros Hc H5 H12 H34 H50.
  unfold ripster_rules, cloud_stop, and_.
  rewrite Hc, H5, H12, H34, H50. cbn [Py.bind].
  destruct (gt_reflect price e34), (lt_reflect price e34); cbn [Py.bind andb];
    split; intro H; try reflexivity; exfalso; lra.
Qed.

Lemma missing_ema50_short_circuit_witness :
  ripster_rules (row_without_ema50 7 7) =
    Ok (mkVerdict NEUTRAL
          "Price is in a consolidation or conflicting signal zone."
          "No trade recommended." 7) /\
  ripster_rules (row_without_ema50 8 7) = Raise (KeyError "EMA50").
Proof.
  split.
  - apply (proj2 (missing_ema50_short_circuit
                    (row_without_ema50 7 7) 7 3 2 7
                    eq_refl eq_refl eq_refl eq_refl eq_refl)).
    reflexivity.
  - apply (proj1 (missing_ema50_short_circuit
                    (row_without_ema50 8 7) 8 3 2 7
                    eq_refl eq_refl eq_refl eq_refl eq_refl)).
    intro H. discriminate H.
Defined.

(** *** The engine followed by the rules *)

Lemma signal_after_emas (data : DataFrame) (closes : Series) :
  getitem data "Close" = Ok closes ->
  index data <> [] ->
  get_ripster_signal (with_emas closes ema_periods data) =
  Ok (let n := (List.length (index data) - 1)%nat in
      verdict_of (nth n closes 0)
        (nth n (ewm_mean 5 closes) 0) (nth n (ewm_mean 12 closes) 0)
        (nth n (ewm_mean 34 closes) 0) (nth n (ewm_mean 50 closes) 0)).
Proof.
  intros Hc Hne.
  set (d := with_emas closes ema_periods data).
  assert (Hidx : index d = index data) by apply with_emas_index.
  assert (Hne' : index d <> []) by (rewrite Hidx; exact Hne).
  assert (Hcol : forall p, In p ema_periods ->
            dict_getitem (last_row d) (ema_name p) =
            Ok (nth (List.length (index data) - 1) (ewm_mean p closes) 0)).
  { intros p Hp. rewrite last_row_getitem. unfold d.
    rewrite (with_emas_column closes data p Hp), with_emas_index.
    reflexivity. }
  cbv zeta.
  apply (get_ripster_signal_value d (last_row d)).
  - apply iloc_last. exact Hne'.
  - rewrite last_row_getitem. unfold d.
    rewrite with_emas_close, Hc, with_emas_index. reflexivity.
  - apply (Hcol 5%Z). cbn [ema_periods In]. tauto.
  - apply (Hcol 12%Z). cbn [ema_periods In]. tauto.
  - apply (Hcol 34%Z). cbn [ema_periods In]. tauto.
  - apply (Hcol 50%Z). cbn [ema_periods In]. tauto.
Qed.

Lemma verdict_of_signal (price e5 e12 e34 e50 : Q) :
  signal (verdict_of price e5 e12 e34 e50) = LONG \/
  signal (verdict_of price e5 e12 e34 e50) = SHORT \/
  signal (verdict_of price e5 e12 e34 e50) = NEUTRAL.
Proof.
  unfold verdict_of.
  destruct (_ && _ && _)%bool; [ left; reflexivity | ].
  destruct (_ && _ && _)%bool; [ right; left | right; right ]; reflexivity.
Qed.

Lemma verdict_of_price (price e5 e12 e34 e50 : Q) :
  current_price (verdict_of price e5 e12 e34 e50) = price.
Proof.
  unfold verdict_of.
  destruct (_ && _ && _)%bool; [ reflexivity | ].
  destruct (_ && _ && _)%bool; reflexivity.
Qed.

Lemma nth_pred_length_last (l : list Q) :
  nth (List.length l - 1) l 0 = last l 0.
Proof.
  induction l as [| x l IH]; [ reflexivity | ].
  destruct l as [| y l]; [ reflexivity | ].
  cbn [List.length] in *.
  replace (S (S (List.length l)) - 1)%nat with (S (List.length l)) by lia.
  replace (S (List.length l) - 1)%nat with (List.length l) in IH by lia.
  change (nth (S (List.length l)) (x :: y :: l) 0)
    with (nth (List.length l) (y :: l) 0).
  rewrite IH. reflexivity.
Qed.

(** X13.  On every frame with at least one row and a Close column, the engine
    followed by the rules returns a verdict: after [calculate_emas] no
    field the rules read is missing.  The signal is one of the three
    values, and on an aligned frame the current price is the last close. *)
Theorem emas_then_signal_returns (data : DataFrame) (closes : Series) :
  getitem data "Close" = Ok closes ->
  index data <> [] ->
  exists data' v,
    calculate_emas data = Ok data' /\
    get_ripster_signal data' = Ok v /\
    (signal v = LONG \/ signal v = SHORT \/ signal v = NEUTRAL) /\
    (aligned data -> current_price v = last closes 0).
Proof.
  intros Hc Hne.
  exists (with_emas closes ema_periods data). eexists.
  split; [ apply calculate_emas_loop_ok; exact Hc | ].
  split; [ apply (signal_after_emas data closes Hc Hne) | ].
  cbv zeta. split; [ apply verdict_of_signal | ].
  intro Hal. rewrite verdict_of_price.
  rewrite <- (aligned_column data "Close" closes Hal Hc).
  apply nth_pred_length_last.
Qed.

Lemma emas_then_signal_returns_witness :
  exists data' v,
    calculate_emas three_bar_intraday = Ok data' /\
    get_ripster_signal data' = Ok v /\
    (signal v = LONG \/ signal v = SHORT \/ signal v = NEUTRAL) /\
    (aligned three_bar_intraday -> current_price v = last [10; 20; 15] 0).
Proof.
  apply (emas_then_signal_returns three_bar_intraday [10; 20; 15]).
  - reflexivity.
  - discriminate.
Defined.

(** *** Flat series *)

Lemma verdict_of_neutral (price e5 e12 e34 e50 : Q) :
  price == e34 ->
  signal (verdict_of price e5 e12 e34 e50) = NEUTRAL.
Proof.
  intro H. unfold verdict_of.
  destruct (gt_reflect price e34), (lt_reflect price e34);
    cbn [andb signal]; try reflexivity; exfalso; lra.
Qed.

Lemma constant_series_verdict (data : DataFrame) (closes : Series) (c : Q) :
  getitem data "Close" = Ok closes ->
  aligned data ->
  index data <> [] ->
  Forall (fun x => x == c) closes ->
  exists v,
    get_ripster_signal (with_emas closes ema_periods data) = Ok v /\
    signal v = NEUTRAL /\ current_price v == c.
Proof.
  intros Hc Hal Hne Hconst.
  eexists. split; [ apply (signal_after_emas data closes Hc Hne) | ].
  cbv zeta.
  pose proof (aligned_column data "Close" closes Hal Hc) as Hlen.
  assert (Hn : (List.length (index data) - 1 < List.length closes)%nat).
  { rewrite Hlen. destruct (index data); [ congruence | cbn [List.length]; lia ]. }
  assert (Hprice : nth (List.length (index data) - 1) closes 0 == c).
  { rewrite Forall_forall in Hconst. apply Hconst. apply nth_In. exact Hn. }
  assert (H34 : nth (List.length (index data) - 1) (ewm_mean 34 closes) 0 == c).
  { assert (Hb : Forall (fun x => c <= x /\ x <= c) closes).
    { eapply Forall_impl; [ | exact Hconst ]. cbn beta. intros x Hx. split; lra. }
    assert (H1 : (1 <= 34)%Z) by lia.
    pose proof (ewm_mean_between 34 c c closes H1 Hb) as He.
    rewrite Forall_forall in He.
    destruct (He (nth (List.length (index data) - 1) (ewm_mean 34 closes) 0))
      as [Ha Hb'].
    { apply nth_In. rewrite ewm_mean_length. exact Hn. }
    lra. }
  split.
  - apply verdict_of_neutral. rewrite Hprice, H34. reflexivity.
  - rewrite verdict_of_price. exact Hprice.
Qed.

(** X14.  When all closes of an aligned frame with rows are equal, the engine
    followed by the rules gives NEUTRAL: every average equals the close, and
    the comparisons are strict. *)
Theorem constant_series_neutral (data : DataFrame) (closes : Series) (c : Q) :
  getitem data "Close" = Ok closes ->
  aligned data ->
  index data <> [] ->
  Forall (fun x => x == c) closes ->
  exists data' v,
    calculate_emas data = Ok data' /\
    get_ripster_signal data' = Ok v /\
    signal v = NEUTRAL /\ current_price v == c.
Proof.
  intros Hc Hal Hne Hconst.
  destruct (constant_series_verdict data closes c Hc Hal Hne Hconst)
    as (v & Hv & Hs).
  exists (with_emas closes ema_periods data), v.
  split; [ apply calculate_emas_loop_ok; exact Hc | ].
  split; assumption.
Qed.

Lemma constant_series_neutral_witness :
  exists data' v,
    calculate_emas flat_three_bar_intraday = Ok data' /\
    get_ripster_signal data' = Ok v /\
    signal v = NEUTRAL /\ current_price v == 100.
Proof.
  apply (constant_series_neutral flat_three_bar_intraday [100; 100; 100] 100).
  - reflexivity.
  - repeat constructor.
  - discriminate.
  - repeat constructor.
Defined.

(** X15.  A frame with a single bar always gives NEUTRAL: with one
    observation every average is the close itself. *)
Theorem single_bar_neutral (data : DataFrame) (closes : Series) :
  getitem data "Close" = Ok closes ->
  aligned data ->
  List.length (index data) = 1%nat ->
  exists data' v,
    calculate_emas data = Ok data' /\
    get_ripster_signal data' = Ok v /\
    signal v = NEUTRAL.
Proof.
  intros Hc Hal Hone.
  pose proof (aligned_column data "Close" closes Hal Hc) as Hlen.
  rewrite Hone in Hlen.
  destruct closes as [| c [| c' rest]]; try discriminate Hlen.
  assert (Hne : index data <> []).
  { intro E. rewrite E in Hone. discriminate Hone. }
  assert (Hconst : Forall (fun x => x == c) [c]) by (repeat constructor).
  destruct (constant_series_verdict data [c] c Hc Hal Hne Hconst)
    as (v & Hv & Hs & _).
  exists (with_emas [c] ema_periods data), v.
  split; [ apply calculate_emas_loop_ok; exact Hc | ].
  split; assumption.
Qed.

Lemma single_bar_neutral_witness :
  exists data' v,
    calculate_emas long_bar_intraday = Ok data' /\
    get_ripster_signal data' = Ok v /\
    signal v = NEUTRAL.
Proof.
  apply (single_bar_neutral long_bar_intraday [120]).
  - reflexivity.
  - repeat constructor.
  - reflexivity.
Defined.

(* ================================================================== *)
(** ** More on fetching, the chart and the main loop *)

Lemma row_getitem_map (f : Series -> Q) (cols : dict Series) (name : string) :
  dict_getitem (map (fun kc => (fst kc, f (snd kc))) cols) name =
  result_map f (dict_getitem cols name).
Proof.
  unfold dict_getitem, result_map.
  induction cols as [| [k0 c0] cols IH]; cbn [map dict_find fst snd].
  - reflexivity.
  - destruct (String.eqb k0 name); [ reflexivity | exact IH ].
Qed.

Lemma iloc_second_last (data : DataFrame) :
  (2 <= List.length (index data))%nat ->
  iloc data (-2) =
  Ok (map (fun kc => (fst kc, nth (List.length (index data) - 2) (snd kc) 0))
          (columns data)).
Proof.
  intro Hlen. unfold iloc.
  change (-2 <? 0)%Z with true. cbv iota.
  assert (H1 : (Z.of_nat (List.length (index data)) + -2 <? 0)%Z = false)
    by (apply Z.ltb_ge; lia).
  assert (H2 : (Z.of_nat (List.length (index data))
                <=? Z.of_nat (List.length (index data)) + -2)%Z = false)
    by (apply Z.leb_gt; lia).
  rewrite H1, H2. cbn [orb].
  replace (Z.to_nat (Z.of_nat (List.length (index data)) + -2))
    with (List.length (index data) - 2)%nat by lia.
  reflexivity.
Qed.

Lemma empty_false_rows (data : DataFrame) :
  empty data = false -> (1 <= List.length (index data))%nat.
Proof.
  unfold empty. intro H. apply orb_false_iff in H. destruct H as [H _].
  apply Nat.eqb_neq in H. lia.
Qed.

(** X18.  [get_stock_data] has three outcomes and no other: the no-data pair
    when a frame is empty; IndexError when both frames have rows and the
    daily one has exactly one; otherwise the second-to-last daily row
    together with the intraday frame as fetched.  It never returns a pair
    with one [None] only. *)
Theorem get_stock_data_outcomes
    (history : string -> string -> string -> DataFrame) (ticker : string) :
  let daily := history ticker "2d" "1d" in
  let intraday := history ticker "7d" "15m" in
  match get_stock_data history ticker with
  | Ok (None, None) => empty daily = true \/ empty intraday = true
  | Ok (Some prev_day, Some data) =>
      empty daily = false /\ empty intraday = false /\
      (2 <= List.length (index daily))%nat /\
      data = intraday /\
      forall name,
        dict_getitem prev_day name =
        result_map (fun col => nth (List.length (index daily) - 2) col 0)
                   (getitem daily name)
  | Ok (Some _, None) | Ok (None, Some _) => False
  | Raise e =>
      empty daily = false /\ empty intraday = false /\
      List.length (index daily) = 1%nat /\
      e = IndexError "single positional indexer is out-of-bounds"
  end.
Proof.
  cbv zeta. unfold get_stock_data.
  destruct (empty (history ticker "2d" "1d")) eqn:Ed; cbn [orb].
  { left; reflexivity. }
  destruct (empty (history ticker "7d" "15m")) eqn:Ei; cbn [orb].
  { right; reflexivity. }
  pose proof (empty_false_rows _ Ed) as Hrows.
  destruct (Nat.eq_dec (List.length (index (history ticker "2d" "1d"))) 1)
    as [Hone | Hmore].
  - unfold iloc. rewrite Hone. cbn. repeat split.
  - rewrite iloc_second_last by lia. cbn [Py.bind].
    repeat split; try lia.
    intro name.
    apply (row_getitem_map
             (fun col => nth (List.length (index (history ticker "2d" "1d")) - 2)
                           col 0)).
Qed.

Lemma chart_value (data : DataFrame) (pivots : dict Q) (ticker_str : string)
    (o h l c e34 e50 e5 e12 vol : Series) :
  getitem data "Open" = Ok o -> getitem data "High" = Ok h ->
  getitem data "Low" = Ok l -> getitem data "Close" = Ok c ->
  getitem data "EMA34" = Ok e34 -> getitem data "EMA50" = Ok e50 ->
  getitem data "EMA5" = Ok e5 -> getitem data "EMA12" = Ok e12 ->
  getitem data "Volume" = Ok vol ->
  exists fig,
    create_fancy_trading_chart data pivots ticker_str = Ok fig /\
    subplot_title fig = ticker_str ++ " Price Action & EMAs" /\
    List.length (traces fig) = (6 + List.length pivots)%nat.
Proof.
  intros Ho Hh Hl Hc H34 H50 H5 H12 Hv.
  unfold create_fancy_trading_chart.
  rewrite Ho, Hh, Hl, Hc, H34, H50, H5, H12, Hv. cbn [Py.bind].
  eexists. split; [ reflexivity | ]. split; [ reflexivity | ].
  cbn [traces List.length app]. rewrite length_app, length_map.
  cbn [List.length]. lia.
Qed.

Lemma chart_outcomes
    (data : DataFrame) (pivots : dict Q) (ticker_str : string) :
  ((exists fig, create_fancy_trading_chart data pivots ticker_str = Ok fig) <->
   Forall (fun k => exists col, getitem data k = Ok col) chart_columns) /\
  (forall e, create_fancy_trading_chart data pivots ticker_str = Raise e ->
     exists k, In k chart_columns /\ e = KeyError k /\
               getitem data k = Raise (KeyError k)) /\
  (forall fig, create_fancy_trading_chart data pivots ticker_str = Ok fig ->
     List.length (traces fig) = (6 + List.length pivots)%nat).
Proof.
  assert (Hraise : forall k c, getitem data k = Raise c -> c = KeyError k).
  { intros k c H. unfold getitem, dict_getitem in H.
    destruct (dict_find (columns data) k); congruence. }
  destruct (getitem data "Open") as [o | x] eqn:Ho;
    [ destruct (getitem data "High") as [h | x] eqn:Hh;
      [ destruct (getitem data "Low") as [l | x] eqn:Hl;
        [ destruct (getitem data "Close") as [c | x] eqn:Hc;
          [ destruct (getitem data "EMA34") as [e34 | x] eqn:H34;
            [ destruct (getitem data "EMA50") as [e50 | x] eqn:H50;
              [ destruct (getitem data "EMA5") as [e5 | x] eqn:H5;
                [ destruct (getitem data "EMA12") as [e12 | x] eqn:H12;
                  [ destruct (getitem data "Volume") as [vol | x] eqn:Hv
                  | ] | ] | ] | ] | ] | ] | ] | ].
  1: { destruct (chart_value data pivots ticker_str _ _ _ _ _ _ _ _ _
                   Ho Hh Hl Hc H34 H50 H5 H12 Hv) as (fig & Hfig & _ & Hlen).
       split; [ split | split ].
       - intros _. unfold chart_columns.
         repeat (constructor; [ eexists; eassumption | ]). constructor.
       - intros _. exists fig. exact Hfig.
       - intros e He. rewrite Hfig in He. discriminate He.
       - intros fig' Hf. rewrite Hfig in Hf. injection Hf as <-. exact Hlen. }
  all: match goal with
       | Hx : getitem _ ?k = Raise ?x |- _ =>
           pose proof (Hraise _ _ Hx) as Hk; subst x;
           assert (Hc' : create_fancy_trading_chart data pivots ticker_str =
                         Raise (KeyError k))
             by (unfold create_fancy_trading_chart;
                 repeat match goal with
                        | H : getitem _ _ = _ |- _ => rewrite H
                        end; reflexivity);
           split; [ split | split ];
           [ intros [fig Hf]; rewrite Hc' in Hf; discriminate Hf
           | intro HF; exfalso;
             rewrite Forall_forall in HF;
             destruct (HF k) as [col Hcol];
             [ unfold chart_columns; cbn [In]; tauto
             | rewrite Hx in Hcol; discriminate Hcol ]
           | intros e He; rewrite Hc' in He; injection He as <-;
             exists k; split; [ unfold chart_columns; cbn [In]; tauto | ];
             split; [ reflexivity | exact Hx ]
           | intros fig Hf; rewrite Hc' in Hf; discriminate Hf ]
       end.
Qed.

(** X19.  The chart is drawn exactly when the frame has the nine columns it
    reads; otherwise KeyError is raised for one of them that is missing.  A
    chart that is drawn has six traces plus one line per pivot level. *)
Theorem chart_needs_columns
    (data : DataFrame) (pivots : dict Q) (ticker_str : string) :
  ((exists fig, create_fancy_trading_chart data pivots ticker_str = Ok fig) <->
   Forall (fun k => exists col, getitem data k = Ok col) chart_columns) /\
  (forall e, create_fancy_trading_chart data pivots ticker_str = Raise e ->
     exists k, In k chart_columns /\ e = KeyError k /\
               getitem data k = Raise (KeyError k)) /\
  (forall fig, create_fancy_trading_chart data pivots ticker_str = Ok fig ->
     List.length (traces fig) = (6 + List.length pivots)%nat).
Proof. exact (chart_outcomes data pivots ticker_str). Qed.

Lemma with_emas_provider_column
    (closes : Series) (data : DataFrame) (name : string) :
  In name ["Open"; "High"; "Low"; "Close"; "Volume"] ->
  getitem (with_emas closes ema_periods data) name = getitem data name.
Proof.
  intro Hin. apply with_emas_other_column. intros p _ E.
  cbn [In] in Hin.
  destruct Hin as [<- | [<- | [<- | [<- | [<- | []]]]]]; discriminate E.
Qed.

(** X20.  After [calculate_emas] the chart can fail only on the provider's
    columns: it is drawn exactly when the fetched frame has Open, High, Low
    and Volume (Close is there, or the engine would have raised). *)
Theorem chart_after_emas
    (data data' : DataFrame) (pivots : dict Q) (ticker_str : string) :
  calculate_emas data = Ok data' ->
  ((exists fig, create_fancy_trading_chart data' pivots ticker_str = Ok fig) <->
   Forall (fun k => exists col, getitem data k = Ok col)
          ["Open"; "High"; "Low"; "Volume"]).
Proof.
  intro H. destruct (calculate_emas_inv data data' H) as (closes & Hc & ->).
  destruct (chart_outcomes (with_emas closes ema_periods data) pivots ticker_str)
    as (Hiff & _).
  rewrite Hiff. unfold chart_columns.
  assert (Hp : forall name, In name ["Open"; "High"; "Low"; "Close"; "Volume"] ->
                 getitem (with_emas closes ema_periods data) name =
                 getitem data name)
    by (intros; apply with_emas_provider_column; assumption).
  assert (He : forall p, In p ema_periods ->
                 exists col, getitem (with_emas closes ema_periods data)
                               (ema_name p) = Ok col).
  { intros p Hin. eexists. apply with_emas_column. exact Hin. }
  split; intro HF.
  - rewrite Forall_forall in HF. apply Forall_forall. intros k Hk.
    rewrite <- Hp by (cbn [In] in *; tauto).
    apply HF. cbn [In] in *. tauto.
  - rewrite Forall_forall in HF. apply Forall_forall. intros k Hk.
    cbn [In] in Hk.
    destruct Hk as [<- | [<- | [<- | [<- | [<- | [<- | [<- | [<- | [<- | []]]]]]]]]].
    + rewrite Hp by (cbn [In]; tauto). apply HF. cbn [In]. tauto.
    + rewrite Hp by (cbn [In]; tauto). apply HF. cbn [In]. tauto.
    + rewrite Hp by (cbn [In]; tauto). apply HF. cbn [In]. tauto.
    + rewrite Hp by (cbn [In]; tauto). eexists. exact Hc.
    + apply (He 34%Z). cbn [ema_periods In]. tauto.
    + apply (He 50%Z). cbn [ema_periods In]. tauto.
    + apply (He 5%Z). cbn [ema_periods In]. tauto.
    + apply (He 12%Z). cbn [ema_periods In]. tauto.
    + rewrite Hp by (cbn [In]; tauto). apply HF. cbn [In]. tauto.
Qed.

Lemma chart_after_emas_witness :
  (exists fig,
      create_fancy_trading_chart
        (with_emas [10; 20; 15] ema_periods three_bar_intraday)
        [("PP", 100)] "AAPL" = Ok fig) <->
  Forall (fun k => exists col, getitem three_bar_intraday k = Ok col)
         ["Open"; "High"; "Low"; "Volume"].
Proof.
  apply (chart_after_emas three_bar_intraday). reflexivity.
Defined.

Section Loop.

Variable history : string -> string -> string -> DataFrame.

(** The steps of the loop body up to the chart. *)
Lemma analyse_ticker_steps (ticker : string) (hs ls cs closes : Series) :
  let daily := history ticker "2d" "1d" in
  let intraday := history ticker "7d" "15m" in
  empty daily = false ->
  (2 <= List.length (index daily))%nat ->
  getitem daily "High" = Ok hs ->
  getitem daily "Low" = Ok ls ->
  getitem daily "Close" = Ok cs ->
  empty intraday = false ->
  getitem intraday "Close" = Ok closes ->
  exists prev_day pivots data' v,
    get_stock_data history ticker = Ok (Some prev_day, Some intraday) /\
    calculate_pivot_points prev_day = Ok pivots /\
    calculate_emas intraday = Ok data' /\
    get_ripster_signal data' = Ok v /\
    analyse_ticker history ticker =
    match create_fancy_trading_chart data' pivots ticker with
    | Ok fig => (analysed ticker pivots v fig, Ok tt)
    | Raise e => (removelast (analysed ticker pivots v (mkFigure "" [])), Raise e)
    end.
Proof.
  intros daily intraday Hd Hrows Hh Hl Hc Hi Hclose.
  assert (Hne : index intraday <> []).
  { pose proof (empty_false_rows _ Hi) as Hr.
    destruct (index intraday); [ cbn in Hr; lia | discriminate ]. }
  set (n := (List.length (index daily) - 2)%nat).
  set (prev_day := map (fun kc => (fst kc, nth n (snd kc) 0)) (columns daily)).
  assert (Hg : get_stock_data history ticker = Ok (Some prev_day, Some intraday)).
  { unfold get_stock_data. fold daily intraday. rewrite Hd, Hi. cbn [orb].
    rewrite (iloc_second_last daily Hrows). reflexivity. }
  assert (Hrow : forall name col, getitem daily name = Ok col ->
                   dict_getitem prev_day name = Ok (nth n col 0)).
  { intros name col Hcol. unfold prev_day.
    rewrite (row_getitem_map (fun col => nth n col 0)).
    unfold getitem in Hcol. rewrite Hcol. reflexivity. }
  pose proof (calculate_pivot_points_value prev_day _ _ _
                (Hrow _ _ Hh) (Hrow _ _ Hl) (Hrow _ _ Hc)) as Hp.
  pose proof (calculate_emas_loop_ok closes ema_periods intraday Hclose) as He.
  pose proof (signal_after_emas intraday closes Hclose Hne) as Hs.
  do 4 eexists.
  split; [ exact Hg | ]. split; [ exact Hp | ].
  split; [ exact He | ]. split; [ exact Hs | ].
  unfold analyse_ticker. rewrite Hg. unfold ui_lift, ui_show.
  cbn [ui_bind app]. rewrite Hp. cbn [ui_bind app].
  unfold calculate_emas at 1. rewrite He. cbn [ui_bind app].
  rewrite Hs. cbn [ui_bind app].
  destruct (create_fancy_trading_chart _ _ ticker) as [fig | e];
    reflexivity.
Qed.

(** X21.  When the daily frame has at least two rows with High, Low and Close
    and the intraday frame has rows with Open, High, Low, Close and Volume,
    the analysis of the ticker raises nothing and shows, in this order: the
    divider, the header, the price, the signal, the reason, the stop text,
    the pivots and the chart. *)
Theorem analyse_ticker_completes
    (ticker : string) (hs ls cs o h l closes vol : Series) :
  let daily := history ticker "2d" "1d" in
  let intraday := history ticker "7d" "15m" in
  empty daily = false ->
  (2 <= List.length (index daily))%nat ->
  getitem daily "High" = Ok hs ->
  getitem daily "Low" = Ok ls ->
  getitem daily "Close" = Ok cs ->
  empty intraday = false ->
  getitem intraday "Open" = Ok o ->
  getitem intraday "High" = Ok h ->
  getitem intraday "Low" = Ok l ->
  getitem intraday "Close" = Ok closes ->
  getitem intraday "Volume" = Ok vol ->
  exists prev_day pivots data' v fig,
    get_stock_data history ticker = Ok (Some prev_day, Some intraday) /\
    calculate_pivot_points prev_day = Ok pivots /\
    calculate_emas intraday = Ok data' /\
    get_ripster_signal data' = Ok v /\
    create_fancy_trading_chart data' pivots ticker = Ok fig /\
    analyse_ticker history ticker = (analysed ticker pivots v fig, Ok tt).
Proof.
  intros daily intraday Hd Hrows Hh Hl Hc Hi Ho Hh' Hl' Hclose Hv.
  destruct (analyse_ticker_steps ticker hs ls cs closes
              Hd Hrows Hh Hl Hc Hi Hclose)
    as (prev_day & pivots & data' & v & Hg & Hp & He & Hs & Ha).
  destruct (calculate_emas_inv _ _ He) as (closes' & Hc' & Hd').
  fold intraday in Hc'. rewrite Hclose in Hc'. injection Hc' as <-.
  destruct (chart_value data' pivots ticker o h l closes
              (ewm_mean 34 closes) (ewm_mean 50 closes)
              (ewm_mean 5 closes) (ewm_mean 12 closes) vol)
    as (fig & Hfig & _).
  1-4, 9: rewrite Hd', with_emas_provider_column by (cbn [In]; tauto);
          assumption.
  1-4: rewrite Hd';
       match goal with
       | |- getitem _ ?k = Ok (ewm_mean ?p _) =>
           change k with (ema_name p); apply with_emas_column;
           cbn [ema_periods In]; tauto
       end.
  exists prev_day, pivots, data', v, fig.
  rewrite Hfig in Ha. repeat split; assumption.
Qed.

(** X22.  With the same data but no Volume column in the intraday frame, the
    page shows everything up to the pivots and then KeyError "Volume" is
    raised when the chart is built. *)
Theorem analyse_ticker_without_volume
    (ticker : string) (hs ls cs o h l closes : Series) :
  let daily := history ticker "2d" "1d" in
  let intraday := history ticker "7d" "15m" in
  empty daily = false ->
  (2 <= List.length (index daily))%nat ->
  getitem daily "High" = Ok hs ->
  getitem daily "Low" = Ok ls ->
  getitem daily "Close" = Ok cs ->
  empty intraday = false ->
  getitem intraday "Open" = Ok o ->
  getitem intraday "High" = Ok h ->
  getitem intraday "Low" = Ok l ->
  getitem intraday "Close" = Ok closes ->
  getitem intraday "Volume" = Raise (KeyError "Volume") ->
  exists pivots v,
    analyse_ticker history ticker =
    ([ Divider; Header ("Analysis for: " ++ ticker);
       Metric "Current Price" ("$" ++ format_2f (current_price v));
       Metric "Signal" (signal v);
       Text ("**Reason:** " ++ reason v);
       Text ("**Risk/Stop:** " ++ stop_loss v);
       Json pivots ],
     Raise (KeyError "Volume")).
Proof.
  intros daily intraday Hd Hrows Hh Hl Hc Hi Ho Hh' Hl' Hclose Hv.
  destruct (analyse_ticker_steps ticker hs ls cs closes
              Hd Hrows Hh Hl Hc Hi Hclose)
    as (prev_day & pivots & data' & v & Hg & Hp & He & Hs & Ha).
  destruct (calculate_emas_inv _ _ He) as (closes' & Hc' & Hd').
  fold intraday in Hc'. rewrite Hclose in Hc'. injection Hc' as <-.
  assert (Hchart : create_fancy_trading_chart data' pivots ticker =
                   Raise (KeyError "Volume")).
  { unfold create_fancy_trading_chart. rewrite Hd'.
    rewrite (with_emas_provider_column closes _ "Open") by (cbn [In]; tauto).
    rewrite (with_emas_provider_column closes _ "High") by (cbn [In]; tauto).
    rewrite (with_emas_provider_column closes _ "Low") by (cbn [In]; tauto).
    rewrite (with_emas_provider_column closes _ "Close") by (cbn [In]; tauto).
    rewrite (with_emas_provider_column closes _ "Volume") by (cbn [In]; tauto).
    fold intraday. rewrite Ho, Hh', Hl', Hclose, Hv. cbn [Py.bind].
    change "EMA34" with (ema_name 34). change "EMA50" with (ema_name 50).
    change "EMA5" with (ema_name 5). change "EMA12" with (ema_name 12).
    rewrite !with_emas_column by (cbn [ema_periods In]; tauto).
    reflexivity. }
  exists pivots, v. rewrite Hchart in Ha. exact Ha.
Qed.

(** *** The batch *)

Lemma for_each_ticker_all_ok (tickers : list string) :
  (forall t, In t tickers -> snd (analyse_ticker history t) = Ok tt) ->
  for_each_ticker history tickers =
  (flat_map (fun t => fst (analyse_ticker history t)) tickers, Ok tt).
Proof.
  induction tickers as [| t tickers IH]; intro H; cbn [for_each_ticker flat_map].
  - reflexivity.
  - pose proof (H t (or_introl eq_refl)) as Ht.
    destruct (analyse_ticker history t) as [out r]. cbn [snd fst] in *. subst r.
    rewrite IH by (intros u Hu; apply H; right; exact Hu).
    reflexivity.
Qed.

(** X23.  When no ticker of the batch raises, the batch returns, and the page
    shows the count message first, then what each ticker shows, in list
    order, then the completion message. *)
Theorem batch_completes (tickers : list string) :
  (forall t, In t tickers -> snd (analyse_ticker history t) = Ok tt) ->
  run_analysis_for_tickers history tickers =
  ((fetching (List.length tickers)
      :: flat_map (fun t => fst (analyse_ticker history t)) tickers
      ++ [ StatusSuccess "✅ Analysis Complete!" ])%list,
   Ok tt).
Proof.
  intro H. unfold run_analysis_for_tickers.
  rewrite (for_each_ticker_all_ok tickers H). reflexivity.
Qed.

(** X24.  An error raised by one ticker ends the batch there: the page shows
    what the tickers before it showed and what that ticker showed before
    the error, the tickers after it are not touched, and no completion
    message appears. *)
Theorem batch_aborts_at_first_error
    (pre rest : list string) (ticker : string) (out : list element) (e : exn) :
  (forall t, In t pre -> snd (analyse_ticker history t) = Ok tt) ->
  analyse_ticker history ticker = (out, Raise e) ->
  run_analysis_for_tickers history (pre ++ ticker :: rest)%list =
  ((fetching (List.length (pre ++ ticker :: rest)%list)
      :: flat_map (fun t => fst (analyse_ticker history t)) pre ++ out)%list,
   Raise e).
Proof.
  intros Hpre Ht. unfold run_analysis_for_tickers.
  rewrite for_each_ticker_app, (for_each_ticker_all_ok pre Hpre).
  cbn [for_each_ticker]. rewrite Ht. reflexivity.
Qed.

End Loop.

Lemma chart_needs_columns_witness :
  exists k,
    In k chart_columns /\ KeyError "EMA34" = KeyError k /\
    getitem three_bar_intraday k = Raise (KeyError k).
Proof.
  apply (proj1 (proj2 (chart_needs_columns three_bar_intraday [] "AAPL"))).
  reflexivity.
Defined.

Lemma analyse_ticker_completes_witness :
  exists prev_day pivots data' v fig,
    get_stock_data sample_history "AAPL" =
      Ok (Some prev_day, Some (sample_history "AAPL" "7d" "15m")) /\
    calculate_pivot_points prev_day = Ok pivots /\
    calculate_emas (sample_history "AAPL" "7d" "15m") = Ok data' /\
    get_ripster_signal data' = Ok v /\
    create_fancy_trading_chart data' pivots "AAPL" = Ok fig /\
    analyse_ticker sample_history "AAPL" = (analysed "AAPL" pivots v fig, Ok tt).
Proof.
  apply (analyse_ticker_completes sample_history "AAPL"
           [105; 104] [95; 99] [100; 102]
           [10; 10; 20] [11; 21; 20] [9; 10; 14] [10; 20; 15] [300; 500; 400]);
    reflexivity.
Defined.

Lemma analyse_ticker_without_volume_witness :
  exists pivots v,
    analyse_ticker patchy_history "NOVOL" =
    ([ Divider; Header ("Analysis for: " ++ "NOVOL");
       Metric "Current Price" ("$" ++ format_2f (current_price v));
       Metric "Signal" (signal v);
       Text ("**Reason:** " ++ reason v);
       Text ("**Risk/Stop:** " ++ stop_loss v);
       Json pivots ],
     Raise (KeyError "Volume")).
Proof.
  apply (analyse_ticker_without_volume patchy_history "NOVOL"
           [105; 104] [95; 99] [100; 102]
           [10; 10; 20] [11; 21; 20] [9; 10; 14] [10; 20; 15]);
    reflexivity.
Defined.

Lemma batch_completes_witness :
  run_analysis_for_tickers sample_history ["AAPL"; "GONE"] =
  ((fetching 2
      :: flat_map (fun t => fst (analyse_ticker sample_history t))
           ["AAPL"; "GONE"]
      ++ [ StatusSuccess "✅ Analysis Complete!" ])%list,
   Ok tt).
Proof.
  apply (batch_completes sample_history ["AAPL"; "GONE"]).
  intros t [<- | [<- | []]]; reflexivity.
Defined.

Lemma batch_aborts_at_first_error_witness :
  run_analysis_for_tickers sample_history (["AAPL"] ++ "NEWCO" :: ["GONE"])%list =
  ((fetching 3
      :: flat_map (fun t => fst (analyse_ticker sample_history t)) ["AAPL"]
      ++ [ Divider; Header "Analysis for: NEWCO" ])%list,
   Raise (IndexError "single positional indexer is out-of-bounds")).
Proof.
  apply (batch_aborts_at_first_error sample_history ["AAPL"] ["GONE"] "NEWCO").
  - intros t [<- | []]. reflexivity.
  - reflexivity.
Defined.

(** The sample file loads as the empty choice and three tickers. *)
Lemma sample_watchlist_value :
  load_watchlist sample_watchlist_lines = [""; "AAPL"; "MSFT"; "GOOG"].
Proof. reflexivity. Qed.
